(** * The "top projects / top contributions" endpoint of api.utopian.io

    A shallow embedding of [post.controller/top] (the admission gate
    [bypassRateLimit], the task runner [top], and the helpers [postRewards],
    [getBoolean], [currentDay]) together with the theorems that relate the
    written specification of the subsystem to that code.

    Conventions.
    - A JavaScript number is an IEEE 754 binary64 value, modelled by
      [spec_float] at precision 53 and maximal exponent 1024.
    - A JavaScript string is a [string] holding its UTF-8 encoding.
    - A thrown exception is the left injection of a sum; its message text
      stands for the one the engine produces.
    - Shared mutable objects live in a heap of task objects indexed by
      location; the module-level [cache] maps a cache id to a location. *)

From Stdlib Require Import ZArith Bool List Ascii String Permutation Lia.
From Stdlib Require Import SpecFloat Sorted.
From stdpp Require Import base option list strings pretty gmap.

Open Scope Z_scope.

(** ** JavaScript numbers *)

Module Num.

Definition number : Type := spec_float.

Definition prec : Z := 53.
Definition emax : Z := 1024.

Definition NaN : number := S754_nan.

(** [isNaN(x)] for a value that already is a number. *)
Definition isNaN (x : number) : bool :=
  match x with
  | S754_nan => true
  | _ => false
  end.

(** An integer literal or an array length as a number. *)
Definition of_Z (z : Z) : number := binary_normalize prec emax z 0 false.

(** [a > b], [a + b], [a - b]. *)
Definition gt (a b : number) : bool := SFltb b a.
Definition add (a b : number) : number := SFadd prec emax a b.
Definition sub (a b : number) : number := SFsub prec emax a b.

(** The mathematical integer a number stands for, when it is one. *)
Definition to_Z (x : number) : option Z :=
  match x with
  | S754_zero _ => Some 0
  | S754_finite s m e =>
      let v := if s then Z.neg m else Z.pos m in
      match e with
      | Z0 => Some v
      | Zpos _ => Some (v * 2 ^ e)
      | Zneg k => if (Z.pos m mod 2 ^ Z.pos k =? 0)
                  then Some (v / 2 ^ Z.pos k) else None
      end
  | _ => None
  end.

(** The value of the decimal literal [m * 10^e10] with sign [neg],
    rounded to nearest, ties to even. *)
Definition decimal (neg : bool) (m : N) (e10 : Z) : number :=
  match m with
  | N0 => S754_zero neg
  | Npos p =>
      if 0 <=? e10
      then binary_round prec emax neg (p * Z.to_pos (10 ^ e10)) 0
      else
        let '(q, e, l) :=
          SFdiv_core_binary prec emax (Z.pos p) 0 (10 ^ (- e10)) 0 in
        binary_round_aux prec emax neg q e l
  end.

End Num.

Abbreviation number := Num.number.

(** ** Strings: white space, tokens, numeric literals *)

Module Str.

Definition is_digit (c : ascii) : bool :=
  let n := nat_of_ascii c in ((48 <=? n) && (n <=? 57))%nat.

Definition digit_val (c : ascii) : N := (N_of_ascii c - 48)%N.

(** White space (WhiteSpace and LineTerminator) in the UTF-8 encoding of a
    string. One byte: U+0009 to U+000D and U+0020. *)
Definition ws1 (a : ascii) : bool :=
  let n := nat_of_ascii a in (((9 <=? n) && (n <=? 13)) || (n =? 32))%nat.

(** Two bytes: U+00A0. *)
Definition ws2 (a b : ascii) : bool :=
  ((nat_of_ascii b =? 160) && (nat_of_ascii a =? 194))%nat.

(** Three bytes: U+1680, U+2000 to U+200A, U+2028, U+2029, U+202F, U+205F,
    U+3000 and U+FEFF. *)
Definition ws3 (a b c : ascii) : bool :=
  let x := nat_of_ascii a in
  let y := nat_of_ascii b in
  let z := nat_of_ascii c in
  ((128 <=? z) && (128 <=? y)
   && (((x =? 225) && (y =? 154) && (z =? 128))
       || ((x =? 226) && (y =? 128)
           && ((z <=? 138) || (z =? 168) || (z =? 169) || (z =? 175)))
       || ((x =? 226) && (y =? 129) && (z =? 159))
       || ((x =? 227) && (y =? 128) && (z =? 128))
       || ((x =? 239) && (y =? 187) && (z =? 191))))%nat.

Fixpoint trim_left (s : string) : string :=
  match s with
  | String a r1 =>
      if ws1 a then trim_left r1
      else
        match r1 with
        | String b r2 =>
            if ws2 a b then trim_left r2
            else
              match r2 with
              | String c r3 => if ws3 a b c then trim_left r3 else s
              | EmptyString => s
              end
        | EmptyString => s
        end
  | EmptyString => s
  end.

(** A string that is white space from end to end is trimmed to nothing;
    any other keeps its first byte. *)
Fixpoint trim_right (s : string) : string :=
  match s with
  | String a r =>
      match trim_left s with
      | EmptyString => EmptyString
      | _ => String a (trim_right r)
      end
  | EmptyString => EmptyString
  end.

Definition trim (s : string) : string := trim_right (trim_left s).

(** [s.split(' ')[0]]: the text before the first space (all of [s] when it
    has none; the empty string when [s] starts with a space). *)
Fixpoint split_head (s : string) : string :=
  match s with
  | String c r => if Ascii.eqb c " " then EmptyString else String c (split_head r)
  | EmptyString => EmptyString
  end.

(** [s] has no space in it. *)
Fixpoint no_space (s : string) : bool :=
  match s with
  | String c r => negb (Ascii.eqb c " ") && no_space r
  | EmptyString => true
  end.

Fixpoint strip_prefix (p s : string) : option string :=
  match p, s with
  | EmptyString, _ => Some s
  | String a p', String b s' => if Ascii.eqb a b then strip_prefix p' s' else None
  | String _ _, EmptyString => None
  end.

(** Reads the longest run of decimal digits at the head of [s]: the value
    accumulated on [acc], the number of digits read, the rest. *)
Fixpoint scan_digits (s : string) (acc : N) (cnt : nat) : N * nat * string :=
  match s with
  | String c r =>
      if is_digit c then scan_digits r (10 * acc + digit_val c)%N (S cnt)
      else (acc, cnt, s)
  | EmptyString => (acc, cnt, s)
  end.

Definition scan_sign (s : string) : bool * string :=
  match s with
  | String "-"%char r => (true, r)
  | String "+"%char r => (false, r)
  | _ => (false, s)
  end.

(** ExponentPart, when one stands at the head of [s]. *)
Definition scan_exponent (s : string) : Z * string :=
  match s with
  | String c r =>
      if Ascii.eqb c "e" || Ascii.eqb c "E" then
        let '(neg, r1) := scan_sign r in
        let '(v, n, r2) := scan_digits r1 0%N 0%nat in
        match n with
        | O => (0, s)
        | S _ => ((if neg then - Z.of_N v else Z.of_N v), r2)
        end
      else (0, s)
  | EmptyString => (0, s)
  end.

(** The longest prefix of [s] that is a StrUnsignedDecimalLiteral, with its
    value under the sign [neg], and the rest of [s]. *)
Definition scan_unsigned (neg : bool) (s : string) : option (number * string) :=
  match strip_prefix "Infinity" s with
  | Some r => Some (S754_infinity neg, r)
  | None =>
      let '(i, ni, r1) := scan_digits s 0%N 0%nat in
      let '(m, nf, r2) :=
        match r1 with
        | String "."%char r => scan_digits r i 0%nat
        | _ => (i, 0%nat, r1)
        end in
      match ni, nf with
      | O, O => None
      | _, _ =>
          let '(e, r3) := scan_exponent r2 in
          Some (Num.decimal neg m (e - Z.of_nat nf), r3)
      end
  end.

(** The longest prefix of [s] that is a StrDecimalLiteral. *)
Definition scan_decimal (s : string) : option (number * string) :=
  let '(neg, r) := scan_sign s in scan_unsigned neg r.

(** The global [parseFloat] applied to a string. *)
Definition parseFloat (s : string) : number :=
  match scan_decimal (trim_left s) with
  | Some (v, _) => v
  | None => Num.NaN
  end.

Definition radix_digit (radix : N) (c : ascii) : option N :=
  let n := N_of_ascii c in
  let v := if ((48 <=? n) && (n <=? 57))%N then Some (n - 48)%N
           else if ((97 <=? n) && (n <=? 102))%N then Some (n - 87)%N
           else if ((65 <=? n) && (n <=? 70))%N then Some (n - 55)%N
           else None in
  match v with
  | Some d => if (d <? radix)%N then Some d else None
  | None => None
  end.

(** All of [s] as digits of the given radix. *)
Fixpoint scan_radix (radix : N) (s : string) (acc : N) : option N :=
  match s with
  | String c r =>
      match radix_digit radix c with
      | Some d => scan_radix radix r (radix * acc + d)%N
      | None => None
      end
  | EmptyString => Some acc
  end.

(** A NonDecimalIntegerLiteral: [0x], [0o] or [0b] and at least one digit. *)
Definition non_decimal (s : string) : option (option number) :=
  match s with
  | String "0"%char (String c r) =>
      let radix :=
        if Ascii.eqb c "x" || Ascii.eqb c "X" then Some 16%N
        else if Ascii.eqb c "o" || Ascii.eqb c "O" then Some 8%N
        else if Ascii.eqb c "b" || Ascii.eqb c "B" then Some 2%N
        else None in
      match radix with
      | Some k =>
          Some match r with
               | EmptyString => None
               | _ => match scan_radix k r 0%N with
                      | Some v => Some (Num.of_Z (Z.of_N v))
                      | None => None
                      end
               end
      | None => None
      end
  | _ => None
  end.

(** [Number(s)] for a string [s] (StringToNumber). *)
Definition toNumber (s : string) : number :=
  match trim s with
  | EmptyString => S754_zero false
  | t =>
      match non_decimal t with
      | Some (Some v) => v
      | Some None => Num.NaN
      | None =>
          match scan_decimal t with
          | Some (v, EmptyString) => v
          | _ => Num.NaN
          end
      end
  end.

End Str.

(** ** Values, exceptions and documents *)

(** The values a field of [req.query] holds: absent, a boolean, a number, a
    string, or a [Date] with its time value ([None] is the invalid date,
    whose [getTime()] is NaN). Time values are integers of milliseconds;
    they stay below 2^53, so their comparisons and differences are taken
    over [Z]. *)
Inductive JsVal : Type :=
| VUndef
| VBool (b : bool)
| VNum (n : number)
| VStr (s : string)
| VDate (t : option Z).

Inductive exn : Type :=
| TypeError (msg : string)
| RangeError (msg : string)
| Failure (msg : string).

Definition message (e : exn) : string :=
  match e with
  | TypeError m | RangeError m | Failure m => m
  end.

(** Computations that may throw. *)
Definition Res (A : Type) : Type := exn + A.

Definition bindR {A B : Type} (m : Res A) (k : A -> Res B) : Res B :=
  match m with
  | inl e => inl e
  | inr a => k a
  end.

Notation "'let!' x ':=' m 'in' k" := (bindR m (fun x => k))
  (at level 10, x name, m at level 100, k at level 200, only parsing).
Notation "'let!' ' p ':=' m 'in' k" := (bindR m (fun x => let 'p := x in k))
  (at level 10, p pattern, m at level 100, k at level 200, only parsing).

(** [a === b] on the values of [JsVal]. Two [Date] objects are distinct
    objects; the code only ever compares against primitive constants. *)
Definition strict_eq (a b : JsVal) : bool :=
  match a, b with
  | VUndef, VUndef => true
  | VBool x, VBool y => Bool.eqb x y
  | VNum x, VNum y => SFeqb x y
  | VStr x, VStr y => String.eqb x y
  | _, _ => false
  end.

(** [Number(v)]. *)
Definition toNumber (v : JsVal) : number :=
  match v with
  | VUndef => Num.NaN
  | VBool b => if b then Num.of_Z 1 else S754_zero false
  | VNum n => n
  | VStr s => Str.toNumber s
  | VDate (Some t) => Num.of_Z t
  | VDate None => Num.NaN
  end.

(** [v.getTime()]: only a [Date] has the method. *)
Definition getTime (name : string) (v : JsVal) : Res (option Z) :=
  match v with
  | VDate t => inr t
  | _ => inl (TypeError (name +:+ ".getTime is not a function"))
  end.

(** [a < b] and [a - b > d] on time values; a comparison with NaN is false. *)
Definition time_lt (a b : option Z) : bool :=
  match a, b with
  | Some x, Some y => x <? y
  | _, _ => false
  end.

Definition span_exceeds (later earlier : option Z) (d : Z) : bool :=
  match later, earlier with
  | Some x, Some y => d <? x - y
  | _, _ => false
  end.

(** A document returned by the aggregation: a contribution, or a project
    group carrying its member contributions in [posts]. A field is [None]
    when the property is absent or [undefined]. *)
#[warnings="-register-all"]
Inductive Doc : Type := mkDoc {
  doc_id : string;
  created : option string;
  active_votes : option (list string);
  pending_payout_value : option string;
  total_payout_value : option string;
  rewards : option number;
  posts : option (list Doc)
}.

Definition set_payouts (pend paid : option string) (d : Doc) : Doc :=
  mkDoc (doc_id d) (created d) (active_votes d) pend paid (rewards d) (posts d).

Definition set_rewards (r : option number) (d : Doc) : Doc :=
  mkDoc (doc_id d) (created d) (active_votes d)
        (pending_payout_value d) (total_payout_value d) r (posts d).

Definition set_posts (ps : option (list Doc)) (d : Doc) : Doc :=
  mkDoc (doc_id d) (created d) (active_votes d)
        (pending_payout_value d) (total_payout_value d) (rewards d) ps.

(** ** Tasks *)

Inductive TaskStatus : Type := ERROR | SUCCESS | IN_PROGRESS.

(** The numeric value of a member of the enum, as it is serialized. *)
Definition status_code (s : TaskStatus) : Z :=
  match s with
  | ERROR => -1
  | SUCCESS => 0
  | IN_PROGRESS => 1
  end.

(** [TaskStatus[s]]: the reverse mapping of the enum. *)
Definition status_name (s : TaskStatus) : string :=
  match s with
  | ERROR => "ERROR"
  | SUCCESS => "SUCCESS"
  | IN_PROGRESS => "IN_PROGRESS"
  end.

(** A task object; [None] is a property that is absent or [undefined]. *)
Record TaskModel : Type := mkTask {
  status : option TaskStatus;
  statusMessage : option string;
  results : option (list Doc)
}.

(** [delete t[k]] on a task object. *)
Definition delete_property (k : string) (t : TaskModel) : TaskModel :=
  if String.eqb k "status" then mkTask None (statusMessage t) (results t)
  else if String.eqb k "statusMessage" then mkTask (status t) None (results t)
  else if String.eqb k "results" then mkTask (status t) (statusMessage t) None
  else t.

(** ** Query parameters *)

Definition TopSortBy_CONTRIBUTIONS : JsVal := VStr "contributions".
Definition TopSortBy_REWARDS : JsVal := VStr "rewards".
Definition RetrieveBy_PROJECTS : JsVal := VStr "projects".
Definition RetrieveBy_CONTRIBUTIONS : JsVal := VStr "contributions".

(** [req.query] as the request brings it. *)
Record RawQuery : Type := mkRaw {
  raw_limit : JsVal;
  raw_start_date : JsVal;
  raw_end_date : JsVal;
  raw_sort_by : JsVal;
  raw_retrieve_by : JsVal;
  raw_include_rewards : JsVal;
  raw_only_new : JsVal
}.

(** [TopQueryParams] as [bypassRateLimit] builds it. [sort_by] and
    [retrieve_by] are passed through unchecked, and a date that came neither
    as a string nor as a [Date] stays what it was. *)
Record TopQueryParams : Type := mkQuery {
  limit : number;
  start_date : JsVal;
  end_date : JsVal;
  sort_by : JsVal;
  retrieve_by : JsVal;
  include_rewards : bool;
  only_new : bool
}.

Record CacheableQueryParams : Type := mkCacheable {
  cacheId : string;
  params : TopQueryParams
}.

(** ** The process-wide state *)

Definition loc : Type := nat.

(** A pending [setTimeout] whose callback is [delete target[key]]. *)
Record Timer : Type := mkTimer {
  due : Z;
  target : loc;
  key : string
}.

Record Store : Type := mkStore {
  heap : list TaskModel;
  cache : gmap string loc;
  timers : list Timer;
  clock : Z
}.

Definition empty_store (now : Z) : Store := mkStore [] ∅ [] now.

(** [cache[id]]: the task object bound to [id], if any. *)
Definition cache_get (σ : Store) (id : string) : option TaskModel :=
  l ← cache σ !! id; heap σ !! l.

(** What a handler does besides changing the store, in program order. *)
Inductive Body : Type :=
| ErrorBody (error : string)
| TaskBody (t : TaskModel)
| UndefinedBody.

(** A stage descriptor of the aggregation, by the call that builds it. *)
Inductive Stage : Type :=
| aggregateMatch (lower : option JsVal) (upper : JsVal)
| aggregateGroup (reward_fields : option (string * string)).

Inductive Effect : Type :=
| ResJson (b : Body)
| Next
| NextError (e : exn)
| UpdateRewards (from to : JsVal) (limiter : option number)
| PostAggregate (stages : list Stage)
| Throws (e : exn).

(** The error of a second send: a response takes one body. *)
Definition headers_sent : exn :=
  Failure "Can't set headers after they are sent.".

(** [res.json(body)] on a response that has ([answered]) or has not been
    sent a body before. On an answered response the call throws when it
    has a body to send, and returns without sending anything when the body
    is [undefined]. *)
Definition res_json (answered : bool) (body : Body) : Effect :=
  if answered then
    match body with
    | UndefinedBody => ResJson body
    | _ => Throws headers_sent
    end
  else ResJson body.

(** Whether one of the calls sent a body. *)
Definition answered_by (effs : list Effect) : bool :=
  existsb (fun e => match e with
                    | ResJson (ErrorBody _) | ResJson (TaskBody _) => true
                    | _ => false
                    end) effs.

(** ** Helpers of the controller *)

Definition getBoolean (val : JsVal) : bool :=
  strict_eq val (VBool true) || strict_eq val (VStr "true").

Definition day_ms : Z := 24 * 60 * 60 * 1000.

(** [currentDay()]: the start of the current UTC day. *)
Definition currentDay (now : Z) : JsVal := VDate (Some (now - now mod day_ms)).

(** [postRewards(post)]: the total, and the post with both raw fields
    cleared. [split] on an absent field throws. *)
Definition postRewards (post : Doc) : Res (number * Doc) :=
  match pending_payout_value post with
  | None => inl (TypeError "Cannot read property 'split' of undefined")
  | Some pend =>
      let pending := Str.parseFloat (Str.split_head pend) in
      match total_payout_value post with
      | None => inl (TypeError "Cannot read property 'split' of undefined")
      | Some total =>
          let paid := Str.parseFloat (Str.split_head total) in
          inr (Num.add pending paid, set_payouts None None post)
      end
  end.

(** [Array.prototype.sort(comparefn)], by insertion; [after a b] says that
    [comparefn(a, b) > 0]. Elements that compare equal keep their order. *)
Fixpoint sort_insert {A : Type} (after : A -> A -> bool) (x : A) (l : list A) : list A :=
  match l with
  | [] => [x]
  | y :: l' => if after x y then y :: sort_insert after x l' else x :: l
  end.

Fixpoint js_sort {A : Type} (after : A -> A -> bool) (l : list A) : list A :=
  match l with
  | [] => []
  | x :: l' => sort_insert after x (js_sort after l')
  end.

(** [(a, b) => b.active_votes.length - a.active_votes.length > 0]. *)
Definition votes_after (a b : Doc) : bool :=
  match active_votes a, active_votes b with
  | Some va, Some vb => (length va <? length vb)%nat
  | _, _ => false
  end.

(** [data.sort((a, b) => b.active_votes.length - a.active_votes.length)]:
    with two elements or more every element reaches the comparator, which
    throws on one that has no [active_votes]. *)
Definition sort_by_votes (data : list Doc) : Res (list Doc) :=
  if (2 <=? length data)%nat
     && negb (forallb (fun d => bool_decide (is_Some (active_votes d))) data)
  then inl (TypeError "Cannot read property 'length' of undefined")
  else inr (js_sort votes_after data).

(** [(a, b) => b.rewards - a.rewards > 0]; an absent [rewards] reads as NaN. *)
Definition rewards_after (a b : Doc) : bool :=
  let num (d : Doc) := match rewards d with Some r => r | None => Num.NaN end in
  Num.gt (Num.sub (num b) (num a)) (S754_zero false).

(** [if (data.length > limit) data.length = limit]: an array length must be
    an integer in [0, 2^32). *)
Definition truncate (lim : number) (data : list Doc) : Res (list Doc) :=
  if Num.gt (Num.of_Z (Z.of_nat (length data))) lim then
    match Num.to_Z lim with
    | Some n => if 0 <=? n then inr (take (Z.to_nat n) data)
                else inl (RangeError "Invalid array length")
    | None => inl (RangeError "Invalid array length")
    end
  else inr data.

(** The collaborators of one run of the task runner: whether
    [updateRewards] rejects, and what [Post.aggregate] resolves to. *)
Record Collaborators : Type := mkCollaborators {
  updateRewards : JsVal -> JsVal -> option number -> option exn;
  Post_aggregate : list Stage -> Res (list Doc)
}.

(** What a call of [bypassRateLimit] leaves behind. When the call threw
    (the last of its effects is [Throws]) it returned nothing;
    [gate_return] then reads [true], as the request is not handed to the
    rate limiter. *)
Record GateResult : Type := mkGate {
  gate_effects : list Effect;
  gate_store : Store;
  gate_return : bool;
  gate_query : option CacheableQueryParams
}.

Section Controller.

(** [new Date(s).getTime()] for a string [s], and the hexadecimal MD5 digest
    of [JSON.stringify(query)]: library functions of the platform. *)
Variable Date_parse : string -> option Z.
Variable digest : TopQueryParams -> string.

(** A destructuring default: it applies to an absent field only. *)
Definition default (d v : JsVal) : JsVal :=
  match v with
  | VUndef => d
  | _ => v
  end.

(** [if (typeof(v) === 'string') v = new Date(v)]. *)
Definition dateOfString (v : JsVal) : JsVal :=
  match v with
  | VStr s => VDate (Date_parse s)
  | _ => v
  end.

(** The outcome of the first half of [bypassRateLimit], up to the end of
    its [try] block: the function has returned [true], or goes on with the
    query it built. *)
Inductive Validated : Type :=
| Returned (effs : list Effect)
| Continue (effs : list Effect) (q : TopQueryParams).

Definition limit_error : Body := ErrorBody "limit is invalid or too high".
Definition range_error : Body :=
  ErrorBody "date range with rewards included must be less than 8 days apart".

(** The destructuring with its defaults, the coercions at the head of the
    [try] block, and the [query] object built from the variables. *)
Definition normalize (raw : RawQuery) (now : Z) : TopQueryParams :=
  let limit := default (VNum (Num.of_Z 5)) (raw_limit raw) in
  let start_date := default (VDate (Some 0)) (raw_start_date raw) in
  let end_date := default (currentDay now) (raw_end_date raw) in
  let sort_by := default TopSortBy_CONTRIBUTIONS (raw_sort_by raw) in
  let retrieve_by := default RetrieveBy_PROJECTS (raw_retrieve_by raw) in
  let include_rewards := default (VBool false) (raw_include_rewards raw) in
  let only_new := default (VBool false) (raw_only_new raw) in
  let start_date := dateOfString start_date in
  let end_date := dateOfString end_date in
  let limit := toNumber limit in
  let include_rewards := getBoolean include_rewards in
  let only_new := getBoolean only_new in
  mkQuery limit start_date end_date sort_by retrieve_by include_rewards only_new.

(** [end_date.getTime() - start_date.getTime() > 8 * 24 * 60 * 60 * 1000]. *)
Definition range_too_wide (query : TopQueryParams) : Res bool :=
  let! e := getTime "end_date" (end_date query) in
  let! s := getTime "start_date" (start_date query) in
  inr (span_exceeds e s (8 * 24 * 60 * 60 * 1000)).

Definition validate (raw : RawQuery) (now : Z) : Validated :=
  let query := normalize raw now in
  if Num.isNaN (limit query) || Num.gt (limit query) (Num.of_Z 100) then
    Returned [ResJson limit_error]
  else if include_rewards query
          || strict_eq (retrieve_by query) RetrieveBy_CONTRIBUTIONS then
    match range_too_wide query with
    | inl ex => Returned [NextError ex]
    | inr true => Continue [ResJson range_error] query
    | inr false => Continue [] query
    end
  else Continue [] query.

(** The second half of [bypassRateLimit]: the cache id, the lookup, and the
    choice between [next()] and the rate limiter. [answered] says that the
    first half has sent a body. *)
Definition lookup_or_admit (query : TopQueryParams) (answered : bool)
    (σ : Store) : GateResult :=
  let cacheId := digest query in
  match cache_get σ cacheId with
  | Some cached =>
      let σ' :=
        match status cached with
        | Some ERROR => mkStore (heap σ) (delete cacheId (cache σ)) (timers σ) (clock σ)
        | _ => σ
        end in
      let body :=
        match cache_get σ' cacheId with
        | Some t => TaskBody t
        | None => UndefinedBody
        end in
      mkGate [res_json answered body] σ' true None
  | None =>
      let q := mkCacheable cacheId query in
      if negb (include_rewards query)
      then mkGate [Next] σ true (Some q)
      else mkGate [] σ false (Some q)
  end.

Definition bypassRateLimit (raw : RawQuery) (σ : Store) : GateResult :=
  match validate raw (clock σ) with
  | Returned effs => mkGate effs σ true None
  | Continue effs query =>
      let r := lookup_or_admit query (answered_by effs) σ in
      mkGate (effs ++ gate_effects r) (gate_store r) (gate_return r) (gate_query r)
  end.

(** *** The task runner *)

(** The arguments of the call of [updateRewards] that [top] makes, if it
    makes one; the third is [None] for [undefined]. *)
Definition rewards_call (p : TopQueryParams) : option (JsVal * JsVal * option number) :=
  if include_rewards p || strict_eq (retrieve_by p) RetrieveBy_CONTRIBUTIONS then
    let limiter :=
      if strict_eq (retrieve_by p) RetrieveBy_PROJECTS
         && strict_eq (sort_by p) TopSortBy_CONTRIBUTIONS
      then Some (limit p) else None in
    Some (start_date p, end_date p, limiter)
  else None.

Definition aggregateQuery (p : TopQueryParams) : list Stage :=
  aggregateMatch (if only_new p then None else Some (start_date p)) (end_date p)
  :: (if strict_eq (retrieve_by p) RetrieveBy_PROJECTS
      then [aggregateGroup
              (if include_rewards p
               then Some ("$total_pending_payout_value", "$total_payout_value")
               else None)]
      else []).

(** [new Date(post.created).getTime() < params.start_date.getTime()]. *)
Definition predates (p : TopQueryParams) (post : Doc) : Res bool :=
  let made := match created post with
              | Some s => Date_parse s
              | None => None
              end in
  let! start := getTime "params.start_date" (start_date p) in
  inr (time_lt made start).

(** [params.only_new && ... < ...]: the right operand is evaluated only
    when [only_new] holds. *)
Definition too_old (p : TopQueryParams) (post : Doc) : Res bool :=
  if only_new p then predates p post else inr false.

(** The loop over the members of one group: whether it ended on [break]
    with [blacklist] set, the rewards summed so far, the members as the
    loop left them. *)
Fixpoint scan_posts (p : TopQueryParams) (members : list Doc) (sum : number)
  : Res (bool * number * list Doc) :=
  match members with
  | [] => inr (false, sum, [])
  | post :: rest =>
      let! old := too_old p post in
      if old then inr (true, sum, members)
      else if include_rewards p then
        let! '(r, post') := postRewards post in
        let! '(b, total, rest') := scan_posts p rest (Num.add sum r) in
        inr (b, total, post' :: rest')
      else
        let! '(b, total, rest') := scan_posts p rest sum in
        inr (b, total, post :: rest')
  end.

(** One round of the outer loop over the groups: [None] when the group is
    spliced out of [data]. *)
Definition scan_repo (p : TopQueryParams) (repo : Doc) : Res (option Doc) :=
  match posts repo with
  | None => inl (TypeError "repo.posts is not iterable")
  | Some members =>
      let! '(blacklist, total, members') := scan_posts p members (S754_zero false) in
      if blacklist then inr None
      else
        let repo' := set_posts (Some members') repo in
        inr (Some (if include_rewards p then set_rewards (Some total) repo' else repo'))
  end.

(** [for (let i = data.length - 1; i >= 0; --i)]: the last element is
    visited first. *)
Fixpoint project_pass (p : TopQueryParams) (data : list Doc) : Res (list Doc) :=
  match data with
  | [] => inr []
  | repo :: rest =>
      let! rest' := project_pass p rest in
      let! r := scan_repo p repo in
      inr match r with
          | Some repo' => repo' :: rest'
          | None => rest'
          end
  end.

Fixpoint contribution_pass (p : TopQueryParams) (data : list Doc) : Res (list Doc) :=
  match data with
  | [] => inr []
  | post :: rest =>
      let! rest' := contribution_pass p rest in
      let! old := too_old p post in
      if old then inr rest'
      else if include_rewards p then
        let! '(r, post') := postRewards post in
        inr (set_rewards (Some r) post' :: rest')
      else inr (post :: rest')
  end.

(** Everything [top] does to [data] between [Post.aggregate] and the
    assignment to [cached.results]. *)
Definition postprocess (p : TopQueryParams) (data : list Doc) : Res (list Doc) :=
  let! data :=
    if strict_eq (retrieve_by p) RetrieveBy_PROJECTS then
      let! data := if only_new p || include_rewards p
                   then project_pass p data else inr data in
      inr (map (set_posts None) data)
    else if strict_eq (retrieve_by p) RetrieveBy_CONTRIBUTIONS then
      let! data := contribution_pass p data in
      if strict_eq (sort_by p) TopSortBy_CONTRIBUTIONS
      then sort_by_votes data else inr data
    else inr data in
  let data :=
    if include_rewards p && strict_eq (sort_by p) TopSortBy_REWARDS
    then js_sort rewards_after data else data in
  truncate (limit p) data.

(** The body of the [try] block of [top] up to [cached.results = data]:
    the calls made to the collaborators and the outcome. *)
Definition compute (w : Collaborators) (p : TopQueryParams) : list Effect * Res (list Doc) :=
  let (calls, rejected) :=
    match rewards_call p with
    | Some (from, to, limiter) =>
        ([UpdateRewards from to limiter], updateRewards w from to limiter)
    | None => ([], None)
    end in
  match rejected with
  | Some e => (calls, inl e)
  | None =>
      (calls ++ [PostAggregate (aggregateQuery p)],
       let! data := Post_aggregate w (aggregateQuery p) in postprocess p data)
  end.

Definition in_progress : TaskModel :=
  mkTask (Some IN_PROGRESS) (Some (status_name IN_PROGRESS)) None.

(** The opening of [top]: a fresh task object is bound to [cache[cacheId]]
    and sent as the response. *)
Definition top_start (q : CacheableQueryParams) (σ : Store) : loc * Store :=
  let cached := length (heap σ) in
  (cached,
   mkStore (heap σ ++ [in_progress]) (<[cacheId q := cached]> (cache σ))
           (timers σ) (clock σ)).

Definition eviction_delay (p : TopQueryParams) : Z :=
  if include_rewards p then 1000 * 60 * 60 * 12 else 1000 * 60 * 5.

(** The end of [top]: the task object [cached] is updated in place; on
    success a timer is set whose callback is [delete cached[params.cacheId]]. *)
Definition top_finish (q : CacheableQueryParams) (cached : loc)
    (outcome : Res (list Doc)) (σ : Store) : Store :=
  match outcome with
  | inr data =>
      mkStore (alter (fun _ => mkTask (Some SUCCESS) (Some (status_name SUCCESS)) (Some data))
                     cached (heap σ))
              (cache σ)
              (timers σ ++ [mkTimer (clock σ + eviction_delay (params q)) cached (cacheId q)])
              (clock σ)
  | inl e =>
      mkStore (alter (fun t => mkTask (Some ERROR) (Some (message e)) (results t))
                     cached (heap σ))
              (cache σ) (timers σ) (clock σ)
  end.

(** A run of [top] during which no other handler runs and no time passes.
    [answered] says that the gate has sent a body on this response. Then
    [res.json(cached)], which stands before the [try] block, throws: the
    task is bound and stays as it is, and nothing else happens. *)
Definition top (w : Collaborators) (q : CacheableQueryParams) (answered : bool)
    (σ : Store) : list Effect * Store :=
  let (cached, σ1) := top_start q σ in
  if answered then ([Throws headers_sent], σ1)
  else
    let (calls, outcome) := compute w (params q) in
    (ResJson (TaskBody in_progress) :: calls, top_finish q cached outcome σ1).

End Controller.

(** ** Timers *)

(** The callback of a timer. *)
Definition fire (t : Timer) (h : list TaskModel) : list TaskModel :=
  alter (delete_property (key t)) (target t) h.

(** Time moves on by [dt] milliseconds; the timers that are due run. *)
Definition advance (dt : Z) (σ : Store) : Store :=
  let now := clock σ + dt in
  let ready := filter (fun t => due t <= now) (timers σ) in
  let waiting := filter (fun t => ~ (due t <= now)) (timers σ) in
  mkStore (foldl (fun h t => fire t h) (heap σ) ready) (cache σ) waiting now.

(** ** A concrete platform for the worked examples *)

(** A date parser that knows the dates the examples use. *)
Definition example_parse (s : string) : option Z :=
  if String.eqb s "2019-12-25" then Some 1577232000000
  else if String.eqb s "2020-01-01" then Some 1577836800000
  else if String.eqb s "2020-01-05" then Some 1578182400000
  else if String.eqb s "2020-01-08" then Some 1578441600000
  else if String.eqb s "2020-02-01" then Some 1580515200000
  else None.

(** A stand-in for the digest: the fields of the query written out. *)
Definition example_digest (q : TopQueryParams) : string :=
  let num (n : number) :=
    match n with
    | S754_zero _ => "0"
    | S754_infinity _ => "inf"
    | S754_nan => "nan"
    | S754_finite s m e =>
        (if s then "-" else "") +:+ pretty (Z.pos m) +:+ "p" +:+ pretty e
    end in
  let text (v : JsVal) :=
    match v with
    | VUndef => "undefined"
    | VBool b => if b then "true" else "false"
    | VNum n => num n
    | VStr s => s
    | VDate (Some t) => pretty t
    | VDate None => "null"
    end in
  num (limit q) +:+ "," +:+ text (start_date q) +:+ "," +:+ text (end_date q)
  +:+ "," +:+ text (sort_by q) +:+ "," +:+ text (retrieve_by q)
  +:+ "," +:+ (if include_rewards q then "true" else "false")
  +:+ "," +:+ (if only_new q then "true" else "false").

Definition no_query : RawQuery :=
  mkRaw VUndef VUndef VUndef VUndef VUndef VUndef VUndef.

Definition with_limit (v : JsVal) (r : RawQuery) : RawQuery :=
  mkRaw v (raw_start_date r) (raw_end_date r) (raw_sort_by r)
        (raw_retrieve_by r) (raw_include_rewards r) (raw_only_new r).

Definition with_dates (a b : string) (r : RawQuery) : RawQuery :=
  mkRaw (raw_limit r) (VStr a) (VStr b) (raw_sort_by r)
        (raw_retrieve_by r) (raw_include_rewards r) (raw_only_new r).

Definition with_sort_by (v : string) (r : RawQuery) : RawQuery :=
  mkRaw (raw_limit r) (raw_start_date r) (raw_end_date r) (VStr v)
        (raw_retrieve_by r) (raw_include_rewards r) (raw_only_new r).

Definition with_retrieve_by (v : string) (r : RawQuery) : RawQuery :=
  mkRaw (raw_limit r) (raw_start_date r) (raw_end_date r) (raw_sort_by r)
        (VStr v) (raw_include_rewards r) (raw_only_new r).

Definition with_include_rewards (v : JsVal) (r : RawQuery) : RawQuery :=
  mkRaw (raw_limit r) (raw_start_date r) (raw_end_date r) (raw_sort_by r)
        (raw_retrieve_by r) v (raw_only_new r).

Definition with_only_new (v : JsVal) (r : RawQuery) : RawQuery :=
  mkRaw (raw_limit r) (raw_start_date r) (raw_end_date r) (raw_sort_by r)
        (raw_retrieve_by r) (raw_include_rewards r) v.


Definition contribution (id made : string) (votes : list string)
    (pend paid : string) : Doc :=
  mkDoc id (Some made) (Some votes) (Some pend) (Some paid) None None.

Definition project (id : string) (members : list Doc) : Doc :=
  mkDoc id None None None None None (Some members).

(** Collaborators that answer with [data], and collaborators whose
    aggregation fails. *)
Definition answering (data : list Doc) : Collaborators :=
  mkCollaborators (fun _ _ _ => None) (fun _ => inr data).

Definition failing (msg : string) : Collaborators :=
  mkCollaborators (fun _ _ _ => None) (fun _ => inl (Failure msg)).

Definition jan_week : RawQuery := with_dates "2020-01-01" "2020-01-08" no_query.

Definition two_projects : list Doc :=
  [ project "steemit/steem"
      [ contribution "alice/fix-typo" "2020-01-05" ["bob"] "1.000 SBD" "0.000 SBD";
        contribution "alice/old-post" "2019-12-25" [] "0.000 SBD" "3.000 SBD" ];
    project "utopian-io/api"
      [ contribution "carol/new-endpoint" "2020-01-05" ["bob"; "dave"]
          "12.500 SBD" "0.250 SBD" ] ].

(** Further data for the worked runs. *)
Definition three_contributions : list Doc :=
  [ contribution "alice/fix-typo" "2020-01-05" ["bob"] "1.000 SBD" "0.000 SBD";
    contribution "alice/old-post" "2019-12-25" [] "0.000 SBD" "3.000 SBD";
    contribution "carol/new-endpoint" "2020-01-05" ["bob"; "dave"]
      "12.500 SBD" "0.250 SBD" ].

(** Collaborators whose [updateRewards] rejects. *)
Definition rejecting (msg : string) : Collaborators :=
  mkCollaborators (fun _ _ _ => Some (Failure msg)) (fun _ => inr []).

(** The query of a request, with its cache id, as the gate hands it on. *)
Definition admitted (raw : RawQuery) (now : Z) : CacheableQueryParams :=
  let p := normalize example_parse raw now in
  mkCacheable (example_digest p) p.

(** ** The post controller: [postMapper] and [getPostById] *)

(** Whether a value is truthy. *)
Definition truthy (v : JsVal) : bool :=
  match v with
  | VUndef => false
  | VBool b => b
  | VNum (S754_zero _) | VNum S754_nan => false
  | VNum _ => true
  | VStr s => negb (String.eqb s "")
  | VDate _ => true
  end.

(** A value of a field of a stored post, which holds whatever JSON the
    client or the chain put there: [null], a primitive, an array or an
    object. *)
Inductive Any : Type :=
| Null
| Prim (v : JsVal)
| Arr (items : list JsVal)
| Obj (fields : list (string * JsVal)).

Definition truthy_any (x : Any) : bool :=
  match x with
  | Null => false
  | Prim v => truthy v
  | Arr _ | Obj _ => true
  end.

(** [a || b]. *)
Definition js_or (a b : Any) : Any := if truthy_any a then a else b.

(** [json_metadata.moderator] when it is truthy, by the four properties
    read off it; a truthy value that is not an object has none of them. *)
Record ModeratorMeta : Type := mkModeratorMeta {
  account : Any;
  mod_pending : Any;
  mod_reviewed : Any;
  mod_flagged : Any
}.

Record JsonMetadata : Type := mkJsonMetadata {
  jm_moderator : option ModeratorMeta;
  jm_questions : Any;
  jm_score : Any
}.

(** A post as the controller sends it: the fields [postMapper] reads and
    writes, and [url]. An absent field reads [Prim VUndef]. *)
Record PostView : Type := mkPostView {
  url : Any;
  json_metadata : option JsonMetadata;
  moderator : Any;
  pending : Any;
  reviewed : Any;
  flagged : Any;
  questions : Any;
  score : Any
}.

Definition postMapper (post : PostView) : Res PostView :=
  match json_metadata post with
  | None => inl (TypeError "Cannot read property 'moderator' of undefined")
  | Some meta =>
      let '(moderator', pending', reviewed', flagged') :=
        match jm_moderator meta with
        | Some md =>
            (js_or (account md) (Prim VUndef),
             js_or (mod_pending md) (Prim (VBool false)),
             js_or (mod_reviewed md) (Prim (VBool false)),
             js_or (mod_flagged md) (Prim (VBool false)))
        | None =>
            (moderator post, Prim (VBool false), Prim (VBool false),
             Prim (VBool false))
        end in
      inr (mkPostView (url post) (json_metadata post)
             moderator' pending' reviewed' flagged'
             (js_or (jm_questions meta) (Arr []))
             (js_or (jm_score meta) (Prim (VNum (S754_zero false)))))
  end.

(** [parseInt(s, 10)]. *)
Definition parseInt10 (s : string) : number :=
  let '(neg, r) := Str.scan_sign (Str.trim_left s) in
  let '(v, n, _) := Str.scan_digits r 0%N 0%nat in
  match n with
  | O => Num.NaN
  | S _ => Num.decimal neg v 0
  end.

(** What [getPostById] does with the request, if anything. *)
Inductive Reply : Type :=
| ReplyUrl (u : Any)
| ReplyNext (e : exn).

(** [Post_list id] is what [Post.list({limit: 1, skip: 0, query: {id}})]
    settles to. *)
Definition getPostById (Post_list : string -> Res (list PostView))
    (postId : string) : option Reply :=
  if strict_eq (VStr postId) (VNum (parseInt10 postId))
     || negb (Num.isNaN (toNumber (VStr postId)))
  then
    Some match Post_list postId with
         | inr (post :: _) => ReplyUrl (url post)
         | inr [] => ReplyNext (TypeError "Cannot read property 'url' of undefined")
         | inl e => ReplyNext e
         end
  else None.

(** ** Measures used to state properties of the results *)

(** The number of votes of a contribution; 0 when it has no
    [active_votes]. *)
Definition vote_count (d : Doc) : nat :=
  match active_votes d with
  | Some votes => length votes
  | None => 0%nat
  end.

(** More votes first. *)
Definition more_votes (a b : Doc) : Prop := (vote_count b <= vote_count a)%nat.

(** The total that [postRewards] computes for a record, when it does not
    throw. *)
Definition reward_of (d : Doc) : option number :=
  match postRewards d with
  | inr (r, _) => Some r
  | inl _ => None
  end.

(** ** Basic facts about values and numbers *)

Lemma strict_eq_str (v : JsVal) (s : string) :
  strict_eq v (VStr s) = true <-> v = VStr s.
Proof.
  destruct v; simpl; try (split; [discriminate | intros [=]]).
  rewrite String.eqb_eq. split; [intros -> | intros [=]]; congruence.
Qed.

Lemma strict_eq_true (v : JsVal) :
  strict_eq v (VBool true) = true <-> v = VBool true.
Proof.
  destruct v as [| [] | | |]; simpl; split; try discriminate; try reflexivity;
    intros [=].
Qed.

Lemma getBoolean_spec (v : JsVal) :
  getBoolean v = true <-> v = VBool true \/ v = VStr "true".
Proof.
  unfold getBoolean. rewrite orb_true_iff, strict_eq_true, strict_eq_str.
  reflexivity.
Qed.

Lemma getBoolean_default (v : JsVal) :
  getBoolean (default (VBool false) v) = getBoolean v.
Proof. destruct v; reflexivity. Qed.

Lemma SFcompare_antisym (x y : spec_float) :
  SFcompare x y = CompOpp <$> SFcompare y x.
Proof.
  destruct x as [sx | sx | | sx mx ex], y as [sy | sy | | sy my ey]; simpl;
    try reflexivity;
    try (destruct sx; reflexivity); try (destruct sy; reflexivity);
    try (destruct sx, sy; reflexivity).
  assert (Hm : Pos.compare_cont Eq mx my = CompOpp (Pos.compare_cont Eq my mx))
    by (symmetry; apply (Pos.compare_cont_antisym my mx Eq)).
  destruct sx, sy; simpl; try reflexivity;
    rewrite (Z.compare_antisym ey ex), Hm;
    destruct (ey ?= ex); simpl; try reflexivity;
    destruct (Pos.compare_cont Eq my mx); reflexivity.
Qed.

(** A number that is not NaN and not greater than [y] is at most [y]. *)
Lemma not_gt_le (x y : number) :
  Num.isNaN x = false -> Num.isNaN y = false -> Num.gt x y = false ->
  SFleb x y = true.
Proof.
  unfold Num.gt, SFltb, SFleb. rewrite (SFcompare_antisym x y).
  destruct (SFcompare y x) as [[]|] eqn:E; simpl; try discriminate; try reflexivity.
  destruct x, y; simpl in *; discriminate.
Qed.

(** ** The admission gate *)

Section Gate.

Variable Date_parse : string -> option Z.
Variable digest : TopQueryParams -> string.

(** The query that validation lets through is the normalized one. *)
Lemma validate_continue (raw : RawQuery) (now : Z) (effs : list Effect) (q : TopQueryParams) :
  validate Date_parse raw now = Continue effs q ->
  q = normalize Date_parse raw now
  /\ Num.isNaN (limit q) || Num.gt (limit q) (Num.of_Z 100) = false
  /\ (effs = [] \/ effs = [ResJson range_error]).
Proof.
  unfold validate.
  destruct (Num.isNaN _ || Num.gt _ _) eqn:Hl; [discriminate |].
  destruct (include_rewards _ || strict_eq _ _).
  - destruct (range_too_wide _) as [ex | []]; intros [= <- <-]; auto.
  - intros [= <- <-]; auto.
Qed.

Lemma normalize_flags (raw : RawQuery) (now : Z) :
  include_rewards (normalize Date_parse raw now) = getBoolean (raw_include_rewards raw)
  /\ only_new (normalize Date_parse raw now) = getBoolean (raw_only_new raw).
Proof. unfold normalize; simpl. by rewrite !getBoolean_default. Qed.

(** A query without rewards never reaches the rate limiter. *)
Lemma cheap_returns_true (raw : RawQuery) (σ : Store) :
  getBoolean (raw_include_rewards raw) = false ->
  gate_return (bypassRateLimit Date_parse digest raw σ) = true.
Proof.
  intros Hb. unfold bypassRateLimit.
  destruct (validate Date_parse raw (clock σ)) as [effs | effs q] eqn:Hv; [reflexivity |].
  apply validate_continue in Hv as (-> & _ & _). simpl.
  unfold lookup_or_admit.
  destruct (cache_get σ _); [reflexivity |].
  destruct (normalize_flags raw (clock σ)) as [-> _]. by rewrite Hb.
Qed.

(** The coerced flags only depend on what [getBoolean] makes of the input. *)
Lemma normalize_include_rewards (raw : RawQuery) (now : Z) (v : JsVal) :
  getBoolean v = false ->
  normalize Date_parse (with_include_rewards v raw) now
  = normalize Date_parse (with_include_rewards (VBool false) raw) now.
Proof.
  intros Hv. destruct raw. unfold normalize.
  cbn -[getBoolean default toNumber dateOfString currentDay].
  by rewrite !getBoolean_default, Hv.
Qed.

Lemma normalize_only_new (raw : RawQuery) (now : Z) (v : JsVal) :
  getBoolean v = false ->
  normalize Date_parse (with_only_new v raw) now
  = normalize Date_parse (with_only_new (VBool false) raw) now.
Proof.
  intros Hv. destruct raw. unfold normalize.
  cbn -[getBoolean default toNumber dateOfString currentDay].
  by rewrite !getBoolean_default, Hv.
Qed.

(** C10. [getBoolean] yields [true] only for the boolean [true] and for the
    string ['true']. Any other input, such as ['True'], ['TRUE'], ['1'], the
    number 1 or ['yes'], is coerced to [false] and not rejected: the gate
    treats a request that carries it exactly as it treats the same request
    with [false] in its place, and a request whose [include_rewards] is
    coerced to [false] is never sent to the rate limiter. *)
Theorem getBoolean_coercion :
  (forall v, getBoolean v = true <-> v = VBool true \/ v = VStr "true")
  /\ getBoolean (VStr "True") = false
  /\ getBoolean (VStr "TRUE") = false
  /\ getBoolean (VStr "1") = false
  /\ getBoolean (VNum (Num.of_Z 1)) = false
  /\ getBoolean (VStr "yes") = false
  /\ (forall raw σ v, getBoolean v = false ->
        bypassRateLimit Date_parse digest (with_include_rewards v raw) σ
        = bypassRateLimit Date_parse digest (with_include_rewards (VBool false) raw) σ)
  /\ (forall raw σ v, getBoolean v = false ->
        bypassRateLimit Date_parse digest (with_only_new v raw) σ
        = bypassRateLimit Date_parse digest (with_only_new (VBool false) raw) σ)
  /\ (forall raw σ, getBoolean (raw_include_rewards raw) = false ->
        include_rewards (normalize Date_parse raw (clock σ)) = false
        /\ gate_return (bypassRateLimit Date_parse digest raw σ) = true).
Proof.
  split; [exact getBoolean_spec |].
  do 5 (split; [reflexivity |]).
  split; [| split].
  - intros raw σ v Hv. unfold bypassRateLimit, validate.
    by rewrite (normalize_include_rewards raw (clock σ) v Hv).
  - intros raw σ v Hv. unfold bypassRateLimit, validate.
    by rewrite (normalize_only_new raw (clock σ) v Hv).
  - intros raw σ Hv. split; [| by apply cheap_returns_true].
    destruct (normalize_flags raw (clock σ)) as [-> _]. exact Hv.
Qed.

(** C6. A request whose [limit] is not numeric ([Number(limit)] is NaN), or
    is greater than 100, is answered at once with [{error: 'limit is invalid or too high'}], and the
    gate stops there: the store is left as it was, so no entry is created
    for any fingerprint, [next()] is not called and the request is not
    handed to the rate limiter, so no runner starts. *)
Theorem invalid_limit_stops (raw : RawQuery) (σ : Store) :
  let l := toNumber (default (VNum (Num.of_Z 5)) (raw_limit raw)) in
  Num.isNaN l = true \/ Num.gt l (Num.of_Z 100) = true ->
  bypassRateLimit Date_parse digest raw σ
  = mkGate [ResJson (ErrorBody "limit is invalid or too high")] σ true None.
Proof.
  intros l Hl. unfold bypassRateLimit, validate.
  change (limit (normalize Date_parse raw (clock σ))) with l.
  assert (Num.isNaN l || Num.gt l (Num.of_Z 100) = true) as ->; [| reflexivity].
  apply orb_true_iff. exact Hl.
Qed.

(** C5, as the code has it. A query that passes the validation of the gate
    has a limit that is a number (not NaN) and is at most 100; the limit is
    [Number] of what the request gave, or 5. *)
Theorem validated_limit_at_most_100 (raw : RawQuery) (now : Z)
    (effs : list Effect) (q : TopQueryParams) :
  validate Date_parse raw now = Continue effs q ->
  limit q = toNumber (default (VNum (Num.of_Z 5)) (raw_limit raw))
  /\ Num.isNaN (limit q) = false
  /\ SFleb (limit q) (Num.of_Z 100) = true.
Proof.
  intros Hv. apply validate_continue in Hv as (-> & Hl & _).
  apply orb_false_iff in Hl as [Hnan Hgt].
  split; [reflexivity |]. split; [exact Hnan |].
  by apply not_gt_le.
Qed.

(** What the guard before the rate limiter does. On a cache miss the
    request is left to the rate limiter (the gate returns [false] and does not call [next()]) exactly
    when [include_rewards] is true; every query without rewards, whatever
    its [retrieve_by], bypasses the limiter: the gate calls [next()] and
    returns [true]. The store is not touched and the query goes on with its
    cache id. *)
Theorem limiter_iff_include_rewards (raw : RawQuery) (σ : Store)
    (effs : list Effect) (q : TopQueryParams) :
  validate Date_parse raw (clock σ) = Continue effs q ->
  cache_get σ (digest q) = None ->
  bypassRateLimit Date_parse digest raw σ
  = mkGate (effs ++ (if include_rewards q then [] else [Next])) σ
           (negb (include_rewards q)) (Some (mkCacheable (digest q) q)).
Proof.
  intros Hv Hmiss. unfold bypassRateLimit, lookup_or_admit.
  rewrite Hv, Hmiss. by destruct (include_rewards q).
Qed.

(** C4. When the limit is valid, the query asks for rewards or for
    contributions, both dates are dates, and they lie more than 8 days
    apart, the gate sends [{error: 'date range with rewards included must
    be less than 8 days apart'}] and goes on: the cache id is computed and
    the cache is looked up. On a miss the request is admitted like any
    other: [next()] is called or the request is left to the rate limiter,
    and the query leaves the gate with its cache id. On a hit the entry of
    a task in ERROR state is removed as usual; a task in another state
    cannot be sent, the response having its body already, and the second
    [res.json] throws. *)
Theorem wide_range_does_not_halt (raw : RawQuery) (σ : Store) (s e : option Z) :
  let q := normalize Date_parse raw (clock σ) in
  Num.isNaN (limit q) = false ->
  Num.gt (limit q) (Num.of_Z 100) = false ->
  include_rewards q = true \/ retrieve_by q = RetrieveBy_CONTRIBUTIONS ->
  start_date q = VDate s ->
  end_date q = VDate e ->
  span_exceeds e s (8 * 24 * 60 * 60 * 1000) = true ->
  validate Date_parse raw (clock σ)
  = Continue
      [ResJson (ErrorBody "date range with rewards included must be less than 8 days apart")] q
  /\ (cache_get σ (digest q) = None ->
      bypassRateLimit Date_parse digest raw σ
      = mkGate (ResJson range_error :: (if include_rewards q then [] else [Next]))
               σ (negb (include_rewards q)) (Some (mkCacheable (digest q) q)))
  /\ (forall t,
        cache_get σ (digest q) = Some t ->
        status t = Some ERROR ->
        cache_get (gate_store (bypassRateLimit Date_parse digest raw σ)) (digest q)
        = None)
  /\ (forall t,
        cache_get σ (digest q) = Some t ->
        status t <> Some ERROR ->
        bypassRateLimit Date_parse digest raw σ
        = mkGate [ResJson range_error; Throws headers_sent] σ true None).
Proof.
  intros q Hnan Hgt Hexp Hs He Hspan.
  assert (Hv : validate Date_parse raw (clock σ) = Continue [ResJson range_error] q).
  { assert (Hlim : Num.isNaN (limit q) || Num.gt (limit q) (Num.of_Z 100) = false)
      by (rewrite Hnan, Hgt; reflexivity).
    assert (Hcost : include_rewards q
                    || strict_eq (retrieve_by q) RetrieveBy_CONTRIBUTIONS = true).
    { apply orb_true_iff. destruct Hexp as [-> | ->]; [by left | by right]. }
    unfold validate. fold q. rewrite Hlim, Hcost.
    unfold range_too_wide. rewrite Hs, He.
    cbn [getTime bindR]. by rewrite Hspan. }
  split; [exact Hv |].
  unfold bypassRateLimit, lookup_or_admit. rewrite Hv.
  split; [| split].
  - intros Hmiss. rewrite Hmiss. by destruct (include_rewards q).
  - intros t Hhit Herr. rewrite Hhit, Herr. simpl.
    unfold cache_get. simpl. by rewrite lookup_delete_eq.
  - intros t Hhit Hst. rewrite Hhit.
    destruct (status t) as [[] |] eqn:Hstat; try congruence;
      by rewrite Hhit.
Qed.

End Gate.

(** *** The gate on concrete requests *)

Lemma invalid_limit_stops_witness :
  ((let l := toNumber (default (VNum (Num.of_Z 5)) (VStr "150")) in
    Num.isNaN l = true \/ Num.gt l (Num.of_Z 100) = true)
   /\ bypassRateLimit example_parse example_digest
        (with_limit (VStr "150") no_query) (empty_store 1580515200000)
      = mkGate [ResJson (ErrorBody "limit is invalid or too high")]
               (empty_store 1580515200000) true None)
  /\ ((let l := toNumber (default (VNum (Num.of_Z 5)) (VStr "ten")) in
       Num.isNaN l = true \/ Num.gt l (Num.of_Z 100) = true)
      /\ bypassRateLimit example_parse example_digest
           (with_limit (VStr "ten") no_query) (empty_store 1580515200000)
         = mkGate [ResJson (ErrorBody "limit is invalid or too high")]
                  (empty_store 1580515200000) true None).
Proof.
  split; (split; [first [right; reflexivity | left; reflexivity] |]).
  - apply (invalid_limit_stops example_parse example_digest
             (with_limit (VStr "150") no_query) (empty_store 1580515200000)).
    right; reflexivity.
  - apply (invalid_limit_stops example_parse example_digest
             (with_limit (VStr "ten") no_query) (empty_store 1580515200000)).
    left; reflexivity.
Defined.

(** C5 as the specification states it fails: a limit of 0, a negative limit and a
    limit that is not an integer all pass the validation. *)
Lemma limit_below_one_passes :
  (exists q,
      validate example_parse (with_limit (VStr "0") no_query) 1580515200000
      = Continue [] q
      /\ Num.to_Z (limit q) = Some 0)
  /\ (exists q,
      validate example_parse (with_limit (VStr "-3") no_query) 1580515200000
      = Continue [] q
      /\ Num.to_Z (limit q) = Some (-3))
  /\ (exists q,
      validate example_parse (with_limit (VStr "2.5") no_query) 1580515200000
      = Continue [] q
      /\ Num.to_Z (limit q) = None).
Proof.
  repeat split; eexists; split; reflexivity.
Qed.

Lemma validated_limit_at_most_100_witness :
  let raw := with_limit (VStr "100") no_query in
  let q := normalize example_parse raw 1580515200000 in
  validate example_parse raw 1580515200000 = Continue [] q
  /\ limit q = toNumber (default (VNum (Num.of_Z 5)) (raw_limit raw))
  /\ Num.isNaN (limit q) = false
  /\ SFleb (limit q) (Num.of_Z 100) = true.
Proof.
  split; [reflexivity |].
  apply (validated_limit_at_most_100 example_parse
           (with_limit (VStr "100") no_query) 1580515200000 []).
  reflexivity.
Defined.

(** C3, on a run. A query by contribution that does not ask for rewards
    misses the cache and bypasses the limiter: the gate calls [next()] and
    returns [true]. The same query counts as expensive for the 8-day check
    of the gate and for the call of [updateRewards] in [top]. *)
Lemma contributions_bypass_limiter :
  let raw := with_retrieve_by "contributions"
               (with_dates "2020-01-01" "2020-01-05" no_query) in
  let σ := empty_store 1580515200000 in
  let q := normalize example_parse raw (clock σ) in
  let r := bypassRateLimit example_parse example_digest raw σ in
  retrieve_by q = RetrieveBy_CONTRIBUTIONS
  /\ cache_get σ (example_digest q) = None
  /\ gate_effects r = [Next]
  /\ gate_return r = true.
Proof. vm_compute. repeat split. Qed.

Lemma limiter_iff_include_rewards_witness :
  let raw := with_include_rewards (VStr "true")
               (with_dates "2020-01-01" "2020-01-05" no_query) in
  let σ := empty_store 1580515200000 in
  let q := normalize example_parse raw (clock σ) in
  (validate example_parse raw (clock σ) = Continue [] q
   /\ cache_get σ (example_digest q) = None)
  /\ bypassRateLimit example_parse example_digest raw σ
     = mkGate [] σ false (Some (mkCacheable (example_digest q) q)).
Proof.
  split; [split; vm_compute; reflexivity |].
  exact (limiter_iff_include_rewards example_parse example_digest
           (with_include_rewards (VStr "true")
              (with_dates "2020-01-01" "2020-01-05" no_query))
           (empty_store 1580515200000) []
           (normalize example_parse
              (with_include_rewards (VStr "true")
                 (with_dates "2020-01-01" "2020-01-05" no_query))
              1580515200000)
           eq_refl eq_refl).
Defined.

Lemma wide_range_does_not_halt_witness :
  let raw := with_retrieve_by "contributions"
               (with_dates "2020-01-01" "2020-02-01" no_query) in
  let σ := empty_store 1580515200000 in
  let q := normalize example_parse raw (clock σ) in
  let busy := (top_start (mkCacheable (example_digest q) q) σ).2 in
  span_exceeds (Some 1580515200000) (Some 1577836800000) (8 * 24 * 60 * 60 * 1000) = true
  /\ validate example_parse raw (clock σ) = Continue [ResJson range_error] q
  /\ bypassRateLimit example_parse example_digest raw σ
     = mkGate [ResJson range_error; Next] σ true
              (Some (mkCacheable (example_digest q) q))
  /\ cache_get busy (example_digest q) = Some in_progress
  /\ bypassRateLimit example_parse example_digest raw busy
     = mkGate [ResJson range_error; Throws headers_sent] busy true None.
Proof.
  intros raw σ q busy.
  destruct (wide_range_does_not_halt example_parse example_digest raw σ
              (Some 1577836800000) (Some 1580515200000)
              eq_refl eq_refl (or_intror eq_refl) eq_refl eq_refl eq_refl)
    as (Hv & Hmiss & _).
  assert (Hbusy : cache_get busy (example_digest q) = Some in_progress)
    by (vm_compute; reflexivity).
  destruct (wide_range_does_not_halt example_parse example_digest raw busy
              (Some 1577836800000) (Some 1580515200000)
              eq_refl eq_refl (or_intror eq_refl) eq_refl eq_refl eq_refl)
    as (_ & _ & _ & Hhit).
  split; [reflexivity |]. split; [exact Hv |].
  split; [exact (Hmiss eq_refl) |]. split; [exact Hbusy |].
  apply (Hhit in_progress Hbusy). discriminate.
Defined.

(** ** Lists: sorting and truncation keep what they are given *)

Lemma sort_insert_perm {A : Type} (after : A -> A -> bool) (x : A) (l : list A) :
  Permutation (sort_insert after x l) (x :: l).
Proof.
  induction l as [| y l IH]; simpl; [reflexivity |].
  destruct (after x y); [| reflexivity].
  rewrite IH. apply perm_swap.
Qed.

Lemma js_sort_perm {A : Type} (after : A -> A -> bool) (l : list A) :
  Permutation (js_sort after l) l.
Proof.
  induction l as [| x l IH]; simpl; [reflexivity |].
  rewrite sort_insert_perm. by constructor.
Qed.

Lemma js_sort_In {A : Type} (after : A -> A -> bool) (l : list A) (x : A) :
  In x (js_sort after l) <-> In x l.
Proof.
  split; apply Permutation_in; [| symmetry]; apply js_sort_perm.
Qed.

Lemma take_In {A : Type} (n : nat) (l : list A) (x : A) :
  In x (take n l) -> In x l.
Proof.
  revert l; induction n as [| n IH]; intros [| y l]; simpl; try tauto.
  intros [-> | H]; [by left | right; by apply IH].
Qed.

Lemma truncate_In (lim : number) (data out : list Doc) (x : Doc) :
  truncate lim data = inr out -> In x out -> In x data.
Proof.
  unfold truncate. destruct (Num.gt _ _); [| by intros [= ->]].
  destruct (Num.to_Z lim) as [n |]; [| discriminate].
  destruct (0 <=? n); [| discriminate].
  intros [= <-]. apply take_In.
Qed.

Lemma truncate_length (lim : number) (data out : list Doc) :
  truncate lim data = inr out -> (length out <= length data)%nat.
Proof.
  unfold truncate. destruct (Num.gt _ _); [| by intros [= ->]].
  destruct (Num.to_Z lim) as [n |]; [| discriminate].
  destruct (0 <=? n); [| discriminate].
  intros [= <-]. rewrite length_take. lia.
Qed.

Lemma NoDup_map_In_inj {A B : Type} (f : A -> B) (l : list A) (x y : A) :
  NoDup (map f l) -> In x l -> In y l -> f x = f y -> x = y.
Proof.
  induction l as [| a l IH]; simpl; [tauto |].
  intros Hnd Hx Hy Hf. apply NoDup_cons in Hnd as [Hnotin Hnd].
  assert (Hin : forall z, In z l -> f z ∈ map f l).
  { intros z Hz. apply list_elem_of_In, in_map, Hz. }
  destruct Hx as [-> | Hx], Hy as [-> | Hy]; auto.
  - exfalso. apply Hnotin. rewrite Hf. by apply Hin.
  - exfalso. apply Hnotin. rewrite <- Hf. by apply Hin.
Qed.

Lemma sort_by_votes_In (data out : list Doc) (x : Doc) :
  sort_by_votes data = inr out -> (In x out <-> In x data).
Proof.
  unfold sort_by_votes. destruct (_ && _); [discriminate |].
  intros [= <-]. apply js_sort_In.
Qed.

(** ** The task runner *)

Section Runner.

Variable Date_parse : string -> option Z.

(** A loop over the members that ends without [break] met no member that
    is too old. *)
Lemma scan_posts_clean (p : TopQueryParams) (members : list Doc) :
  forall sum total members',
    scan_posts Date_parse p members sum = inr (false, total, members') ->
    Forall (fun m => too_old Date_parse p m = inr false) members.
Proof.
  induction members as [| post rest IH]; intros sum total members' H;
    [constructor |].
  simpl in H.
  destruct (too_old Date_parse p post) as [e | []] eqn:Hold; simpl in H;
    try discriminate.
  constructor; [exact Hold |].
  destruct (include_rewards p).
  - destruct (postRewards post) as [e | [r post']]; simpl in H; [discriminate |].
    destruct (scan_posts Date_parse p rest (Num.add sum r))
      as [e | [[b t] rest']] eqn:Hrest; simpl in H; [discriminate |].
    injection H as -> _ _. eapply IH, Hrest.
  - destruct (scan_posts Date_parse p rest sum)
      as [e | [[b t] rest']] eqn:Hrest; simpl in H; [discriminate |].
    injection H as -> _ _. eapply IH, Hrest.
Qed.

(** A group that survives its round keeps its identity and has no member
    that is too old. *)
Lemma scan_repo_kept (p : TopQueryParams) (repo kept : Doc) :
  scan_repo Date_parse p repo = inr (Some kept) ->
  doc_id kept = doc_id repo
  /\ exists members,
      posts repo = Some members
      /\ Forall (fun m => too_old Date_parse p m = inr false) members.
Proof.
  unfold scan_repo. destruct (posts repo) as [members |]; [| discriminate].
  destruct (scan_posts Date_parse p members (S754_zero false))
    as [e | [[b total] members']] eqn:Hscan; simpl; [discriminate |].
  destruct b; [discriminate |]. intros [= <-].
  split; [by destruct (include_rewards p) |].
  exists members. split; [reflexivity |]. eapply scan_posts_clean, Hscan.
Qed.

Lemma project_pass_In (p : TopQueryParams) (data : list Doc) :
  forall out kept,
    project_pass Date_parse p data = inr out -> In kept out ->
    exists repo, In repo data /\ scan_repo Date_parse p repo = inr (Some kept).
Proof.
  induction data as [| repo rest IH]; intros out kept H Hin; simpl in H.
  - injection H as <-. destruct Hin.
  - destruct (project_pass Date_parse p rest) as [e | rest'] eqn:Hrest;
      simpl in H; [discriminate |].
    destruct (scan_repo Date_parse p repo) as [e | [repo' |]] eqn:Hrepo;
      simpl in H; [discriminate | |]; injection H as <-.
    + destruct Hin as [<- | Hin]; [exists repo; split; [by left | exact Hrepo] |].
      destruct (IH _ _ eq_refl Hin) as (g & Hg & Hs). exists g. split; [by right | exact Hs].
    + destruct (IH _ _ eq_refl Hin) as (g & Hg & Hs). exists g. split; [by right | exact Hs].
Qed.

(** What reaches the results of a query by project with [only_new]. *)
Lemma postprocess_only_new_projects (p : TopQueryParams) (data out : list Doc) :
  retrieve_by p = RetrieveBy_PROJECTS ->
  only_new p = true ->
  postprocess Date_parse p data = inr out ->
  forall e, In e out ->
    posts e = None
    /\ exists g members,
        In g data /\ doc_id g = doc_id e /\ posts g = Some members
        /\ forall m, In m members -> predates Date_parse p m = inr false.
Proof.
  intros Hby Hnew H e Hin. unfold postprocess in H.
  rewrite Hby, Hnew in H. simpl in H.
  destruct (project_pass Date_parse p data) as [ex | kept] eqn:Hpass;
    simpl in H; [discriminate |].
  apply truncate_In with (x := e) in H; [| exact Hin].
  assert (Hmap : In e (map (set_posts None) kept)).
  { destruct (include_rewards p && strict_eq (sort_by p) TopSortBy_REWARDS);
      [by apply js_sort_In in H | exact H]. }
  apply in_map_iff in Hmap as (k & <- & Hk). split; [reflexivity |].
  destruct (project_pass_In p data kept k Hpass Hk) as (g & Hg & Hscan).
  apply scan_repo_kept in Hscan as (Hid & members & Hposts & Hall).
  exists g, members. repeat split; try assumption.
  - by rewrite <- Hid.
  - intros m Hm. rewrite Forall_forall in Hall.
    specialize (Hall m). unfold too_old in Hall. rewrite Hnew in Hall.
    apply Hall. by apply list_elem_of_In.
Qed.

(** After a run of [top] the cache holds, under the cache id of the query,
    the task object in its terminal state. *)
Lemma top_cache_get (w : Collaborators) (q : CacheableQueryParams) (σ : Store) :
  cache_get (top Date_parse w q false σ).2 (cacheId q)
  = Some match (compute Date_parse w (params q)).2 with
         | inr data => mkTask (Some SUCCESS) (Some "SUCCESS") (Some data)
         | inl e => mkTask (Some ERROR) (Some (message e)) None
         end.
Proof.
  unfold top, top_start, top_finish, cache_get.
  destruct (compute Date_parse w (params q)) as [calls [e | data]]; simpl;
    rewrite lookup_insert_eq; simpl;
    rewrite list_lookup_alter_eq, (list_lookup_middle _ [] in_progress);
    reflexivity.
Qed.

(** On a response that was answered before, the run leaves its task as it
    was bound: IN_PROGRESS, with no timer. *)
Lemma top_answered (w : Collaborators) (q : CacheableQueryParams) (σ : Store) :
  (top Date_parse w q true σ).1 = [Throws headers_sent]
  /\ cache_get (top Date_parse w q true σ).2 (cacheId q) = Some in_progress
  /\ timers (top Date_parse w q true σ).2 = timers σ.
Proof.
  unfold top, top_start, cache_get. simpl.
  rewrite lookup_insert_eq. simpl.
  by rewrite (list_lookup_middle _ [] in_progress).
Qed.

(** The results of a successful run come from [postprocess], applied to
    what [Post.aggregate] resolved to for the stages of the query. *)
Lemma top_results (w : Collaborators) (q : CacheableQueryParams)
    (answered : bool) (σ : Store) (t : TaskModel) (out : list Doc) :
  cache_get (top Date_parse w q answered σ).2 (cacheId q) = Some t ->
  results t = Some out ->
  status t = Some SUCCESS
  /\ exists data,
      Post_aggregate w (aggregateQuery (params q)) = inr data
      /\ postprocess Date_parse (params q) data = inr out.
Proof.
  destruct answered.
  { destruct (top_answered w q σ) as (_ & -> & _). by intros [= <-]. }
  rewrite top_cache_get. intros [= <-].
  unfold compute.
  destruct (rewards_call (params q)) as [[[from to] limiter] |];
    [destruct (updateRewards w from to limiter) |]; simpl; try discriminate.
  - destruct (Post_aggregate w (aggregateQuery (params q))) as [e | data];
      simpl; [discriminate |].
    destruct (postprocess Date_parse (params q) data) eqn:Hpost; simpl;
      [discriminate |].
    intros [= <-]. split; [reflexivity |]. by exists data.
  - destruct (Post_aggregate w (aggregateQuery (params q))) as [e | data];
      simpl; [discriminate |].
    destruct (postprocess Date_parse (params q) data) eqn:Hpost; simpl;
      [discriminate |].
    intros [= <-]. split; [reflexivity |]. by exists data.
Qed.

(** The calls that a run of [top] makes. *)
Lemma top_effects (w : Collaborators) (q : CacheableQueryParams) (σ : Store) :
  (top Date_parse w q false σ).1
  = ResJson (TaskBody in_progress) :: (compute Date_parse w (params q)).1.
Proof.
  unfold top, top_start.
  by destruct (compute Date_parse w (params q)).
Qed.

(** On a response that has not been answered, a run of [top] calls
    [updateRewards] if and only if [include_rewards] is true or
    [retrieve_by] is ['contributions']; the
    call is over [start_date] and [end_date], and its third argument is
    [limit] exactly when [retrieve_by] is ['projects'] and [sort_by] is
    ['contributions'], and is [undefined] in every other case. *)
Lemma enrichment_call (w : Collaborators) (q : CacheableQueryParams) (σ : Store) :
  let p := params q in
  let effs := (top Date_parse w q false σ).1 in
  ((exists from to limiter, In (UpdateRewards from to limiter) effs)
   <-> include_rewards p = true \/ retrieve_by p = RetrieveBy_CONTRIBUTIONS)
  /\ (forall from to limiter,
        In (UpdateRewards from to limiter) effs ->
        from = start_date p /\ to = end_date p
        /\ ((limiter = Some (limit p)
             /\ retrieve_by p = RetrieveBy_PROJECTS
             /\ sort_by p = TopSortBy_CONTRIBUTIONS)
            \/ (limiter = None
                /\ ~ (retrieve_by p = RetrieveBy_PROJECTS
                      /\ sort_by p = TopSortBy_CONTRIBUTIONS)))).
Proof.
  intros p effs. subst effs. rewrite top_effects. fold p.
  unfold compute, rewards_call.
  assert (Hcost : include_rewards p || strict_eq (retrieve_by p) RetrieveBy_CONTRIBUTIONS = true
                  <-> include_rewards p = true \/ retrieve_by p = RetrieveBy_CONTRIBUTIONS).
  { rewrite orb_true_iff. unfold RetrieveBy_CONTRIBUTIONS. by rewrite strict_eq_str. }
  assert (Hcap : strict_eq (retrieve_by p) RetrieveBy_PROJECTS
                 && strict_eq (sort_by p) TopSortBy_CONTRIBUTIONS = true
                 <-> retrieve_by p = RetrieveBy_PROJECTS
                     /\ sort_by p = TopSortBy_CONTRIBUTIONS).
  { rewrite andb_true_iff. unfold RetrieveBy_PROJECTS, TopSortBy_CONTRIBUTIONS.
    by rewrite !strict_eq_str. }
  destruct (include_rewards p || strict_eq (retrieve_by p) RetrieveBy_CONTRIBUTIONS).
  - set (limiter0 := if strict_eq (retrieve_by p) RetrieveBy_PROJECTS
                        && strict_eq (sort_by p) TopSortBy_CONTRIBUTIONS
                     then Some (limit p) else None).
    assert (Hcall : forall from to limiter,
               In (UpdateRewards from to limiter)
                  (ResJson (TaskBody in_progress)
                   :: (let (calls, rejected) :=
                         ([UpdateRewards (start_date p) (end_date p) limiter0],
                          updateRewards w (start_date p) (end_date p) limiter0) in
                       match rejected with
                       | Some e => (calls, inl e)
                       | None =>
                           (calls ++ [PostAggregate (aggregateQuery p)],
                            let! data := Post_aggregate w (aggregateQuery p) in
                            postprocess Date_parse p data)
                       end).1)
               <-> from = start_date p /\ to = end_date p /\ limiter = limiter0).
    { intros from to limiter.
      destruct (updateRewards w (start_date p) (end_date p) limiter0); simpl;
        (split; [intros [[=] | [[= -> -> ->] | H]]; [done | try (destruct H as [[=] | []]); try destruct H]
                | intros (-> & -> & ->); right; by left]). }
    split.
    + split; [intros _; by apply Hcost |].
      intros _. exists (start_date p), (end_date p), limiter0. by apply Hcall.
    + intros from to limiter Hin. apply Hcall in Hin as (-> & -> & ->).
      split; [reflexivity |]. split; [reflexivity |].
      subst limiter0.
      destruct (strict_eq (retrieve_by p) RetrieveBy_PROJECTS
                && strict_eq (sort_by p) TopSortBy_CONTRIBUTIONS).
      * left. split; [reflexivity |]. by apply Hcap.
      * right. split; [reflexivity |]. intros H. apply Hcap in H. discriminate.
  - split.
    + split.
      * intros (from & to & limiter & [[=] | [[=] | []]]).
      * intros H. apply Hcost in H. discriminate.
    + intros from to limiter [[=] | [[=] | []]].
Qed.

Example enrichment_call_examples :
  let calls (raw : RawQuery) :=
    let p := normalize Date_parse raw 1580515200000 in
    rewards_call p in
  calls (with_include_rewards (VStr "true") jan_week)
  = Some (VDate (Date_parse "2020-01-01"), VDate (Date_parse "2020-01-08"),
          Some (Num.of_Z 5))
  /\ calls (with_sort_by "rewards" (with_include_rewards (VStr "true") jan_week))
     = Some (VDate (Date_parse "2020-01-01"), VDate (Date_parse "2020-01-08"), None)
  /\ calls (with_retrieve_by "contributions" jan_week)
     = Some (VDate (Date_parse "2020-01-01"), VDate (Date_parse "2020-01-08"), None)
  /\ calls jan_week = None.
Proof. repeat split. Qed.

(** C7. For a query by project with [only_new]: the match stage is built
    without a lower bound on the date; every entry of the results has lost
    its member list and comes from a group none of whose members predates
    [start_date]; so, the groups having distinct identities, a group with a
    member that predates [start_date] is absent from the results, whatever
    its other members are. *)
Theorem only_new_drops_whole_project (w : Collaborators)
    (q : CacheableQueryParams) (answered : bool) (σ : Store)
    (t : TaskModel) (out : list Doc) :
  let p := params q in
  retrieve_by p = RetrieveBy_PROJECTS ->
  only_new p = true ->
  cache_get (top Date_parse w q answered σ).2 (cacheId q) = Some t ->
  results t = Some out ->
  (exists group, aggregateQuery p = [aggregateMatch None (end_date p); group])
  /\ exists data,
      Post_aggregate w (aggregateQuery p) = inr data
      /\ (forall e, In e out ->
            posts e = None
            /\ exists g members,
                In g data /\ doc_id g = doc_id e /\ posts g = Some members
                /\ forall m, In m members -> predates Date_parse p m = inr false)
      /\ (NoDup (map doc_id data) ->
          forall g members m,
            In g data -> posts g = Some members -> In m members ->
            predates Date_parse p m = inr true ->
            forall e, In e out -> doc_id e <> doc_id g).
Proof.
  intros p Hby Hnew Hget Hres.
  split.
  { unfold aggregateQuery. rewrite Hby, Hnew. simpl. eauto. }
  destruct (top_results w q answered σ t out Hget Hres)
    as (_ & data & Hagg & Hpost).
  fold p in Hagg, Hpost.
  pose proof (postprocess_only_new_projects p data out Hby Hnew Hpost) as Hout.
  exists data. split; [exact Hagg |]. split; [exact Hout |].
  intros Hnodup g members m Hg Hposts Hm Hold e He Hid.
  destruct (Hout e He) as (_ & g' & members' & Hg' & Hid' & Hposts' & Hclean).
  assert (g' = g) as ->.
  { apply (NoDup_map_In_inj doc_id data); try assumption. congruence. }
  rewrite Hposts in Hposts'. injection Hposts' as <-.
  specialize (Hclean m Hm). rewrite Hold in Hclean. discriminate.
Qed.

(** Every contribution that the pass keeps, it keeps with its reward
    computed by [postRewards] when rewards are asked for. *)
Lemma contribution_pass_In (p : TopQueryParams) (data : list Doc) :
  forall out d,
    include_rewards p = true ->
    contribution_pass Date_parse p data = inr out -> In d out ->
    exists src r cleared,
      In src data /\ postRewards src = inr (r, cleared)
      /\ d = set_rewards (Some r) cleared.
Proof.
  induction data as [| post rest IH]; intros out d Hrew H Hin; simpl in H.
  - injection H as <-. destruct Hin.
  - destruct (contribution_pass Date_parse p rest) as [e | rest'] eqn:Hrest;
      simpl in H; [discriminate |].
    assert (Hrec : In d rest' ->
                   exists src r cleared,
                     In src (post :: rest) /\ postRewards src = inr (r, cleared)
                     /\ d = set_rewards (Some r) cleared).
    { intros Hd. destruct (IH _ _ Hrew eq_refl Hd) as (src & r & c & Hs & Hp & Hd').
      exists src, r, c. split; [by right | by split]. }
    destruct (too_old Date_parse p post) as [e | []]; simpl in H; try discriminate.
    + injection H as <-. by apply Hrec.
    + rewrite Hrew in H.
      destruct (postRewards post) as [e | [r cleared]] eqn:Hpost; simpl in H;
        [discriminate |].
      injection H as <-. destruct Hin as [<- | Hin]; [| by apply Hrec].
      exists post, r, cleared. split; [by left | by split].
Qed.

Lemma postprocess_contributions_rewards (p : TopQueryParams) (data out : list Doc) :
  retrieve_by p = RetrieveBy_CONTRIBUTIONS ->
  include_rewards p = true ->
  postprocess Date_parse p data = inr out ->
  forall d, In d out ->
    exists src r cleared,
      In src data /\ postRewards src = inr (r, cleared)
      /\ d = set_rewards (Some r) cleared.
Proof.
  intros Hby Hrew H d Hin. unfold postprocess in H.
  rewrite Hby in H. simpl in H.
  destruct (contribution_pass Date_parse p data) as [e | kept] eqn:Hpass;
    simpl in H; [discriminate |].
  destruct (if strict_eq (sort_by p) TopSortBy_CONTRIBUTIONS
            then sort_by_votes kept else inr kept) as [e | sorted] eqn:Hsort;
    simpl in H; [discriminate |].
  apply truncate_In with (x := d) in H; [| exact Hin].
  assert (Hs : In d sorted).
  { destruct (include_rewards p && strict_eq (sort_by p) TopSortBy_REWARDS);
      [by apply js_sort_In in H | exact H]. }
  assert (Hk : In d kept).
  { destruct (strict_eq (sort_by p) TopSortBy_CONTRIBUTIONS).
    - by apply (sort_by_votes_In kept sorted d Hsort).
    - by injection Hsort as <-. }
  by apply (contribution_pass_In p data kept d Hrew Hpass).
Qed.

End Runner.

(** ** Rewards *)

Lemma split_head_token (amount currency : string) :
  Str.no_space amount = true ->
  Str.split_head (amount +:+ " " +:+ currency) = amount.
Proof.
  induction amount as [| c r IH]; simpl; [reflexivity |].
  intros H. apply andb_true_iff in H as [Hc Hr].
  destruct (Ascii.eqb c " "); [discriminate |].
  f_equal. by apply IH.
Qed.

(** ** The first token and the leading numeric text *)

Section Token.

Variable tail : string.

(** What follows the token: a space and the rest of the field. *)
Local Abbreviation rest_of u := (u +:+ String " " tail).

Lemma ws3_space_middle (a c : ascii) : Str.ws3 a " " c = false.
Proof.
  unfold Str.ws3. cbn [nat_of_ascii].
  by destruct (128 <=? nat_of_ascii c)%nat.
Qed.

Lemma trim_left_token_bounded (n : nat) :
  forall t,
    (String.length t <= n)%nat ->
    Str.trim_left t <> "" ->
    Str.trim_left (rest_of t) = rest_of (Str.trim_left t).
Proof.
  induction n as [| n IH]; intros t Hlen Ht.
  - destruct t; [by destruct Ht | simpl in Hlen; lia].
  - destruct t as [| a [| b [| c r3]]]; [by destruct Ht | | |].
    + simpl in *. destruct (Str.ws1 a); [by destruct Ht |].
      destruct tail as [| c r3]; [reflexivity |].
      by rewrite ws3_space_middle.
    + change (rest_of (String a (String b "")))
        with (String a (String b (rest_of ""))).
      cbn [Str.trim_left] in *.
      destruct (Str.ws1 a).
      * apply (IH (String b "")); [simpl in *; lia | exact Ht].
      * destruct (Str.ws2 a b); [by destruct Ht | reflexivity].
    + change (rest_of (String a (String b (String c r3))))
        with (String a (String b (String c (rest_of r3)))).
      cbn [Str.trim_left] in *.
      destruct (Str.ws1 a).
      * apply (IH (String b (String c r3))); [simpl in *; lia | exact Ht].
      * destruct (Str.ws2 a b).
        -- apply (IH (String c r3)); [simpl in *; lia | exact Ht].
        -- destruct (Str.ws3 a b c); [| reflexivity].
           apply IH; [simpl in *; lia | exact Ht].
Qed.

Lemma trim_left_token (t : string) :
  Str.trim_left t <> "" ->
  Str.trim_left (rest_of t) = rest_of (Str.trim_left t).
Proof. by apply (trim_left_token_bounded (String.length t)). Qed.

Lemma scan_digits_token (u : string) :
  forall acc cnt,
    Str.scan_digits (rest_of u) acc cnt
    = let '(a, c, r) := Str.scan_digits u acc cnt in (a, c, rest_of r).
Proof.
  induction u as [| c u IH]; intros acc cnt; simpl; [reflexivity |].
  destruct (Str.is_digit c); [apply IH | reflexivity].
Qed.

Lemma scan_sign_token (u : string) :
  Str.scan_sign (rest_of u)
  = let '(neg, r) := Str.scan_sign u in (neg, rest_of r).
Proof.
  destruct u as [| c u]; [reflexivity |].
  destruct c as [[] [] [] [] [] [] [] []]; reflexivity.
Qed.

Lemma scan_exponent_token (u : string) :
  Str.scan_exponent (rest_of u)
  = let '(e, r) := Str.scan_exponent u in (e, rest_of r).
Proof.
  destruct u as [| c u]; [reflexivity |].
  change (rest_of (String c u)) with (String c (rest_of u)).
  unfold Str.scan_exponent.
  destruct (Ascii.eqb c "e" || Ascii.eqb c "E"); [| reflexivity].
  rewrite scan_sign_token. destruct (Str.scan_sign u) as [neg r1].
  rewrite scan_digits_token.
  destruct (Str.scan_digits r1 0%N 0%nat) as [[v n] r2].
  destruct n; reflexivity.
Qed.

Lemma strip_prefix_token (p : string) :
  Str.no_space p = true ->
  forall u,
    Str.strip_prefix p (rest_of u) = (fun r => rest_of r) <$> Str.strip_prefix p u.
Proof.
  induction p as [| a p IH]; intros Hp u; [reflexivity |].
  simpl in Hp. apply andb_true_iff in Hp as [Ha Hp].
  destruct u as [| b u]; simpl.
  - destruct (Ascii.eqb a " "); [discriminate | reflexivity].
  - destruct (Ascii.eqb a b); [by apply IH | reflexivity].
Qed.

Lemma scan_unsigned_token (neg : bool) (u : string) :
  fst <$> Str.scan_unsigned neg (rest_of u) = fst <$> Str.scan_unsigned neg u.
Proof.
  unfold Str.scan_unsigned.
  rewrite strip_prefix_token by reflexivity.
  destruct (Str.strip_prefix "Infinity" u) as [r |]; [reflexivity |].
  cbn [fmap option_fmap option_map].
  rewrite scan_digits_token.
  destruct (Str.scan_digits u 0%N 0%nat) as [[i ni] r1].
  assert (Hfrac :
    match rest_of r1 with
    | String "."%char r => Str.scan_digits r i 0%nat
    | _ => (i, 0%nat, rest_of r1)
    end
    = let '(m, nf, r2) :=
        match r1 with
        | String "."%char r => Str.scan_digits r i 0%nat
        | _ => (i, 0%nat, r1)
        end in (m, nf, rest_of r2)).
  { destruct r1 as [| c r1]; [reflexivity |].
    cbn [String.append].
    destruct c as [[] [] [] [] [] [] [] []]; try reflexivity.
    apply scan_digits_token. }
  rewrite Hfrac.
  destruct (match r1 with
            | String "."%char r => Str.scan_digits r i 0%nat
            | _ => (i, 0%nat, r1)
            end) as [[m nf] r2].
  rewrite scan_exponent_token.
  destruct (Str.scan_exponent r2) as [e r3].
  destruct ni, nf; reflexivity.
Qed.

Lemma scan_decimal_token (u : string) :
  fst <$> Str.scan_decimal (rest_of u) = fst <$> Str.scan_decimal u.
Proof.
  unfold Str.scan_decimal. rewrite scan_sign_token.
  destruct (Str.scan_sign u) as [neg r]. apply scan_unsigned_token.
Qed.

(** [parseFloat] stops at the space that ends the token. *)
Lemma parseFloat_token (t : string) :
  Str.trim_left t <> "" ->
  Str.parseFloat (rest_of t) = Str.parseFloat t.
Proof.
  intros Ht. unfold Str.parseFloat. rewrite (trim_left_token t Ht).
  pose proof (scan_decimal_token (Str.trim_left t)) as H.
  destruct (Str.scan_decimal (rest_of (Str.trim_left t))) as [[v r] |],
           (Str.scan_decimal (Str.trim_left t)) as [[v' r'] |];
    simpl in H; congruence.
Qed.

End Token.

Lemma split_head_decompose (s : string) :
  s = Str.split_head s \/ exists tail, s = Str.split_head s +:+ String " " tail.
Proof.
  induction s as [| c s IH]; simpl; [by left |].
  destruct (Ascii.eqb_spec c " ") as [-> | Hc].
  - right. by exists s.
  - destruct IH as [IH | [tail IH]].
    + left. by f_equal.
    + right. exists tail.
      change (String c s = String c (Str.split_head s +:+ String " " tail)).
      by f_equal.
Qed.

(** When the first token of a field is not blank, parsing it is parsing the
    leading numeric text of the whole field. *)
Lemma parseFloat_split_head (s : string) :
  Str.trim_left (Str.split_head s) <> "" ->
  Str.parseFloat (Str.split_head s) = Str.parseFloat s.
Proof.
  intros Ht. destruct (split_head_decompose s) as [H | [tail H]].
  - by rewrite <- H.
  - rewrite H at 2. symmetry. by apply parseFloat_token.
Qed.

(** What [postRewards] returns when it returns. *)
Lemma postRewards_inv (post cleared : Doc) (r : number) :
  postRewards post = inr (r, cleared) ->
  exists pend paid,
    pending_payout_value post = Some pend
    /\ total_payout_value post = Some paid
    /\ r = Num.add (Str.parseFloat (Str.split_head pend))
                   (Str.parseFloat (Str.split_head paid))
    /\ cleared = set_payouts None None post.
Proof.
  unfold postRewards.
  destruct (pending_payout_value post) as [pend |]; [| discriminate].
  destruct (total_payout_value post) as [paid |]; [| discriminate].
  intros [= <- <-]. by exists pend, paid.
Qed.

(** [postRewards] on a record whose fields read ["<amount> <currency>"]. *)
Lemma postRewards_amounts (post : Doc) (a1 c1 a2 c2 : string) :
  Str.no_space a1 = true -> Str.no_space a2 = true ->
  pending_payout_value post = Some (a1 +:+ " " +:+ c1) ->
  total_payout_value post = Some (a2 +:+ " " +:+ c2) ->
  postRewards post
  = inr (Num.add (Str.parseFloat a1) (Str.parseFloat a2),
         set_payouts None None post).
Proof.
  intros H1 H2 Hp Ht. unfold postRewards.
  rewrite Hp, Ht, !split_head_token by assumption. reflexivity.
Qed.

(** C9. For a record with both payout fields, neither starting with a
    blank token, the reward that [postRewards] computes is the parsed
    leading numeric text of the pending payout plus the parsed leading
    numeric text of the paid payout, and the record comes back with both
    raw fields cleared and nothing else changed. In the results of a query
    by contribution with rewards, every entry is such a cleared record,
    carrying the total computed from the record it comes from: neither raw
    field is present in the output. *)
Theorem reward_total_clears_payouts :
  (forall post pend paid,
      pending_payout_value post = Some pend ->
      total_payout_value post = Some paid ->
      Str.trim_left (Str.split_head pend) <> "" ->
      Str.trim_left (Str.split_head paid) <> "" ->
      postRewards post
      = inr (Num.add (Str.parseFloat pend) (Str.parseFloat paid),
             mkDoc (doc_id post) (created post) (active_votes post)
                   None None (rewards post) (posts post)))
  /\ (forall Date_parse p data out,
        retrieve_by p = RetrieveBy_CONTRIBUTIONS ->
        include_rewards p = true ->
        postprocess Date_parse p data = inr out ->
        forall d, In d out ->
          pending_payout_value d = None
          /\ total_payout_value d = None
          /\ exists src pend paid,
              In src data /\ doc_id d = doc_id src
              /\ pending_payout_value src = Some pend
              /\ total_payout_value src = Some paid
              /\ rewards d = Some (Num.add (Str.parseFloat (Str.split_head pend))
                                           (Str.parseFloat (Str.split_head paid)))).
Proof.
  split.
  - intros post pend paid Hp Ht Hpend Hpaid. unfold postRewards.
    rewrite Hp, Ht, !parseFloat_split_head by assumption. reflexivity.
  - intros Date_parse p data out Hby Hrew Hpost d Hin.
    destruct (postprocess_contributions_rewards Date_parse p data out
                Hby Hrew Hpost d Hin) as (src & r & cleared & Hsrc & Hr & ->).
    apply postRewards_inv in Hr as (pend & paid & Hp & Ht & -> & ->).
    split; [reflexivity |]. split; [reflexivity |].
    exists src, pend, paid. by repeat split.
Qed.

(** ** Worked runs *)

Lemma only_new_drops_whole_project_witness :
  let p := normalize example_parse (with_only_new (VStr "true") jan_week) 1580515200000 in
  let q := mkCacheable (example_digest p) p in
  let run := top example_parse (answering two_projects) q false (empty_store 1580515200000) in
  let out := [mkDoc "utopian-io/api" None None None None None None] in
  (retrieve_by p = RetrieveBy_PROJECTS
   /\ only_new p = true
   /\ cache_get run.2 (cacheId q)
      = Some (mkTask (Some SUCCESS) (Some "SUCCESS") (Some out)))
  /\ aggregateQuery p
     = [aggregateMatch None (VDate (Some 1578441600000)); aggregateGroup None]
  /\ forall e, In e out -> posts e = None /\ doc_id e <> "steemit/steem".
Proof.
  intros p q run out.
  assert (Hget : cache_get run.2 (cacheId q)
                 = Some (mkTask (Some SUCCESS) (Some "SUCCESS") (Some out)))
    by (vm_compute; reflexivity).
  split; [by repeat split |]. split; [reflexivity |].
  destruct (only_new_drops_whole_project example_parse (answering two_projects)
              q false (empty_store 1580515200000) _ out eq_refl eq_refl Hget eq_refl)
    as (_ & data & Hdata & Hout & Habsent).
  injection Hdata as <-.
  intros e He. split; [by apply Hout |].
  assert (Hdistinct : NoDup (map doc_id two_projects)).
  { apply (bool_decide_eq_true_1 _). vm_compute. reflexivity. }
  eapply (Habsent Hdistinct
            (project "steemit/steem" _) _
            (contribution "alice/old-post" "2019-12-25" [] "0.000 SBD" "3.000 SBD"));
    [by left | reflexivity | right; by left | reflexivity | exact He].
Defined.

Lemma reward_total_clears_payouts_witness :
  let post := contribution "carol/new-endpoint" "2020-01-05" ["bob"; "dave"]
                "12.500 SBD" "0.250 SBD" in
  (Str.trim_left (Str.split_head "12.500 SBD") <> ""
   /\ Str.trim_left (Str.split_head "0.250 SBD") <> "")
  /\ postRewards post
     = inr (Num.add (Str.parseFloat "12.500 SBD") (Str.parseFloat "0.250 SBD"),
            mkDoc "carol/new-endpoint" (Some "2020-01-05") (Some ["bob"; "dave"])
                  None None None None)
  /\ Num.add (Str.parseFloat "12.500 SBD") (Str.parseFloat "0.250 SBD")
     = Str.parseFloat "12.75".
Proof.
  split; [split; discriminate |]. split; [| reflexivity].
  apply (proj1 reward_total_clears_payouts
           (contribution "carol/new-endpoint" "2020-01-05" ["bob"; "dave"]
              "12.500 SBD" "0.250 SBD")
           "12.500 SBD" "0.250 SBD" eq_refl eq_refl); discriminate.
Defined.

(** ** Eviction and the error path *)

(** A timer never touches the cache: its callback deletes a property of
    the task object it closes over. *)
Lemma advance_cache (dt : Z) (σ : Store) : cache (advance dt σ) = cache σ.
Proof. reflexivity. Qed.

(** However long one waits after a run of [top], the cache still binds
    the cache id of the query to the task object of that run. *)
Lemma top_entry_never_evicted (Date_parse : string -> option Z)
    (w : Collaborators) (q : CacheableQueryParams) (answered : bool)
    (σ : Store) (dt : Z) :
  cache (advance dt (top Date_parse w q answered σ).2) !! cacheId q
  = Some (length (heap σ)).
Proof.
  rewrite advance_cache. unfold top, top_start, top_finish.
  destruct answered; [apply lookup_insert_eq |].
  destruct (compute Date_parse w (params q)) as [calls [e | data]]; simpl;
    apply lookup_insert_eq.
Qed.

(** A hit on a task in ERROR state: the entry is deleted, and the body of
    the response is what [cache[cacheId]] reads after the deletion. *)
Lemma error_hit (digest : TopQueryParams -> string) (query : TopQueryParams)
    (answered : bool) (σ : Store) (stale : TaskModel) :
  cache_get σ (digest query) = Some stale ->
  status stale = Some ERROR ->
  lookup_or_admit digest query answered σ
  = mkGate [ResJson UndefinedBody]
           (mkStore (heap σ) (delete (digest query) (cache σ)) (timers σ) (clock σ))
           true None.
Proof.
  intros Hget Herr. unfold lookup_or_admit. rewrite Hget, Herr.
  unfold cache_get at 1. simpl. rewrite lookup_delete_eq.
  by destruct answered.
Qed.

(** C1, on two runs. A query with rewards is computed at noon; its task
    ends in SUCCESS and a timer is set for 12 hours later. One millisecond
    before the timer is due the entry is served; when 12 hours have passed
    the timer has run, and the entry is still in the cache and still
    served, where the specification has it absent. The same happens to a query
    without rewards after its 5 minutes. The timer deleted the property
    named by the cache id from the task object, which has none. *)
Theorem success_entry_outlives_its_timer :
  let noon := 1580558400000 in
  let task := mkTask (Some SUCCESS) (Some "SUCCESS") (Some []) in
  let served (raw : RawQuery) (delay : Z) :=
    let p := normalize example_parse raw noon in
    let q := mkCacheable (example_digest p) p in
    let done := (top example_parse (answering []) q false (empty_store noon)).2 in
    cache_get done (cacheId q) = Some task
    /\ timers done = [mkTimer (noon + delay) 0%nat (cacheId q)]
    /\ cache_get (advance (delay - 1) done) (cacheId q) = Some task
    /\ timers (advance delay done) = []
    /\ cache_get (advance delay done) (cacheId q) = Some task
    /\ gate_effects (bypassRateLimit example_parse example_digest raw
                       (advance delay done))
       = [ResJson (TaskBody task)] in
  served (with_include_rewards (VStr "true") jan_week) (12 * 60 * 60 * 1000)
  /\ served jan_week (5 * 60 * 1000).
Proof. vm_compute. repeat split. Qed.

(** C2, on a run. The aggregation of a query fails and its task ends in
    ERROR. The next request for the same query removes the entry, and the
    body it is sent is [undefined], where the specification has the stale ERROR
    task: [res.json] reads [cache[cacheId]] after the deletion. *)
Theorem error_hit_sends_no_snapshot :
  let now := 1580558400000 in
  let p := normalize example_parse jan_week now in
  let q := mkCacheable (example_digest p) p in
  let failed := (top example_parse (failing "connection lost") q false (empty_store now)).2 in
  let stale := mkTask (Some ERROR) (Some "connection lost") None in
  let again := bypassRateLimit example_parse example_digest jan_week failed in
  cache_get failed (cacheId q) = Some stale
  /\ gate_effects again = [ResJson UndefinedBody]
  /\ gate_effects again <> [ResJson (TaskBody stale)]
  /\ gate_return again = true
  /\ cache_get (gate_store again) (cacheId q) = None.
Proof. vm_compute. repeat split. discriminate. Qed.

(** C8, on a run. A query with rewards over a month misses the cache: the
    gate sends the 8-day error, goes on and leaves the request to the
    rate limiter with its cache id. For this query [top] is to call
    [updateRewards] over the two dates with the limit as cap. The run
    binds its task and throws at [res.json(cached)], the response having
    its body already: [updateRewards] is not called, the task stays
    IN_PROGRESS and no timer is set. *)
Theorem wide_range_run_skips_enrichment :
  let now := 1580558400000 in
  let raw := with_include_rewards (VStr "true")
               (with_dates "2020-01-01" "2020-02-01" no_query) in
  let q := admitted raw now in
  let gate := bypassRateLimit example_parse example_digest raw (empty_store now) in
  let run := top example_parse (answering []) q (answered_by (gate_effects gate))
               (gate_store gate) in
  gate_effects gate = [ResJson range_error]
  /\ gate_return gate = false
  /\ gate_query gate = Some q
  /\ rewards_call (params q)
     = Some (VDate (Some 1577836800000), VDate (Some 1580515200000),
             Some (Num.of_Z 5))
  /\ run.1 = [Throws headers_sent]
  /\ (forall from to limiter, ~ In (UpdateRewards from to limiter) run.1)
  /\ cache_get run.2 (cacheId q) = Some in_progress
  /\ timers run.2 = [].
Proof.
  vm_compute. repeat split; try reflexivity.
  intros from to limiter [[=] | []].
Qed.

(** White space outside ASCII is trimmed like a blank: a limit or a post
    id written with a no-break space before or after its digits is the
    number of its digits. *)
Example unicode_white_space_is_trimmed :
  let nbsp := String (ascii_of_nat 194) (String (ascii_of_nat 160) "") in
  let line_separator :=
    String (ascii_of_nat 226) (String (ascii_of_nat 128)
                                 (String (ascii_of_nat 168) "")) in
  toNumber (VStr (nbsp +:+ "5")) = Num.of_Z 5
  /\ toNumber (VStr ("5" +:+ line_separator +:+ nbsp)) = Num.of_Z 5
  /\ Str.parseFloat (nbsp +:+ "12.5 SBD") = Str.parseFloat "12.5"
  /\ validate example_parse (with_limit (VStr (nbsp +:+ "5")) jan_week) 0
     = Continue [] (normalize example_parse jan_week 0)
  /\ getPostById (fun _ => inr []) (nbsp +:+ "7")
     = Some (ReplyNext (TypeError "Cannot read property 'url' of undefined")).
Proof. vm_compute. repeat split. Qed.

(** * Further properties of the controller *)

(** ** The gate: hits, misses and what the gate leaves alone *)

Section GateMore.

Variable Date_parse : string -> option Z.
Variable digest : TopQueryParams -> string.

(** X1. A request that hits a task which is not in ERROR state (IN_PROGRESS
    or SUCCESS) never starts a second runner: the store is unchanged,
    [next()] is not called, [req.query] is not rewritten and the request
    is not handed to the rate limiter. When validation sent nothing, the
    task is sent as it stands. When validation sent the 8-day error, the
    task cannot be sent any more: the second [res.json] throws. *)
Theorem hit_serves_task (raw : RawQuery) (σ : Store) (effs : list Effect)
    (q : TopQueryParams) (t : TaskModel) :
  validate Date_parse raw (clock σ) = Continue effs q ->
  cache_get σ (digest q) = Some t ->
  status t <> Some ERROR ->
  (effs = []
   /\ bypassRateLimit Date_parse digest raw σ
      = mkGate [ResJson (TaskBody t)] σ true None)
  \/ (effs = [ResJson range_error]
      /\ bypassRateLimit Date_parse digest raw σ
         = mkGate [ResJson range_error; Throws headers_sent] σ true None).
Proof.
  intros Hv Hget Hst.
  pose proof (validate_continue Date_parse raw (clock σ) effs q Hv)
    as (_ & _ & Heffs).
  unfold bypassRateLimit, lookup_or_admit. rewrite Hv, Hget.
  destruct (status t) as [[] |] eqn:Hs; try congruence; rewrite Hget;
    (destruct Heffs as [-> | ->]; [left | right]; by split).
Qed.

(** X2. The gate creates nothing: whatever the request, the task objects,
    the timers and the clock are as before, and every binding of the cache
    after the request was a binding before it. *)
Theorem gate_creates_nothing (raw : RawQuery) (σ : Store) :
  let σ' := gate_store (bypassRateLimit Date_parse digest raw σ) in
  heap σ' = heap σ
  /\ timers σ' = timers σ
  /\ clock σ' = clock σ
  /\ cache σ' ⊆ cache σ.
Proof.
  unfold bypassRateLimit.
  destruct (validate Date_parse raw (clock σ)) as [effs | effs q]; simpl;
    [done |].
  unfold lookup_or_admit.
  destruct (cache_get σ (digest q)) as [t |]; simpl.
  - destruct (status t) as [[] |]; simpl; repeat split; try done.
    apply delete_subseteq.
  - by destruct (include_rewards q).
Qed.

(** X3. A query that asks for rewards or for contributions, with a valid
    limit and a date that is neither a string nor a [Date], is passed to
    the error handler: the gate calls [next(e)] with the TypeError of the
    failed [getTime()] call, sends no body, leaves the store alone and
    returns [true]. [end_date] is looked at first. *)
Theorem malformed_date_goes_to_next (raw : RawQuery) (σ : Store) :
  let q := normalize Date_parse raw (clock σ) in
  Num.isNaN (limit q) = false ->
  Num.gt (limit q) (Num.of_Z 100) = false ->
  include_rewards q = true \/ retrieve_by q = RetrieveBy_CONTRIBUTIONS ->
  (forall t, end_date q <> VDate t) \/ (forall t, start_date q <> VDate t) ->
  exists name,
    (name = "end_date" \/ name = "start_date")
    /\ ((forall t, end_date q <> VDate t) -> name = "end_date")
    /\ bypassRateLimit Date_parse digest raw σ
       = mkGate [NextError (TypeError (name +:+ ".getTime is not a function"))]
                σ true None.
Proof.
  intros q Hnan Hgt Hcost Hbad.
  assert (Hlim : Num.isNaN (limit q) || Num.gt (limit q) (Num.of_Z 100) = false)
    by (rewrite Hnan, Hgt; reflexivity).
  assert (Hexp : include_rewards q
                 || strict_eq (retrieve_by q) RetrieveBy_CONTRIBUTIONS = true).
  { apply orb_true_iff. destruct Hcost as [-> | ->]; [by left | by right]. }
  unfold bypassRateLimit, validate. fold q. rewrite Hlim, Hexp.
  unfold range_too_wide.
  destruct (end_date q) as [| b | n | s | te] eqn:He;
    try (exists "end_date"; repeat split; auto; fail).
  destruct Hbad as [Hbad | Hbad]; [by destruct (Hbad te) |].
  destruct (start_date q) as [| b | n | s | ts] eqn:Hs;
    try (exists "start_date"; repeat split; auto;
         intros H; by destruct (H te)).
  by destruct (Hbad ts).
Qed.

(** X4. The 8-day warning is sent exactly when the query asks for rewards or
    for contributions and both dates are valid and lie more than
    691200000 ms apart. A span of exactly 8 days passes silently, and so
    does any query one of whose dates is an invalid [Date]. *)
Theorem range_error_iff (raw : RawQuery) (now : Z) (effs : list Effect)
    (q : TopQueryParams) :
  validate Date_parse raw now = Continue effs q ->
  (effs = [ResJson range_error]
   <-> (include_rewards q = true \/ retrieve_by q = RetrieveBy_CONTRIBUTIONS)
       /\ exists s e,
           start_date q = VDate (Some s) /\ end_date q = VDate (Some e)
           /\ 8 * 24 * 60 * 60 * 1000 < e - s)
  /\ (effs <> [ResJson range_error] -> effs = []).
Proof.
  intros Hv. pose proof (validate_continue Date_parse raw now effs q Hv) as (Hq & _ & Heffs).
  split; [| destruct Heffs as [-> | ->]; [done | congruence]].
  unfold validate in Hv. rewrite <- Hq in Hv.
  destruct (Num.isNaN (limit q) || Num.gt (limit q) (Num.of_Z 100));
    [discriminate |].
  assert (Hcost : include_rewards q || strict_eq (retrieve_by q) RetrieveBy_CONTRIBUTIONS = true
                  <-> include_rewards q = true \/ retrieve_by q = RetrieveBy_CONTRIBUTIONS).
  { rewrite orb_true_iff. unfold RetrieveBy_CONTRIBUTIONS. by rewrite strict_eq_str. }
  destruct (include_rewards q || strict_eq (retrieve_by q) RetrieveBy_CONTRIBUTIONS).
  - unfold range_too_wide in Hv.
    destruct (end_date q) as [| | | | te]; simpl in Hv; try discriminate.
    destruct (start_date q) as [| | | | ts]; simpl in Hv; try discriminate.
    destruct (span_exceeds te ts (8 * 24 * 60 * 60 * 1000)) eqn:Hspan;
      injection Hv as <-.
    + split; [intros _ | done]. split; [by apply Hcost |].
      destruct te as [e |], ts as [s |]; simpl in Hspan; try discriminate.
      exists s, e. repeat split. by apply Z.ltb_lt.
    + split; [done |]. intros (_ & s & e & [= ->] & [= ->] & Hlt).
      simpl in Hspan. apply Z.ltb_ge in Hspan. lia.
  - injection Hv as <-. split; [done |].
    intros (Hc & _). apply Hcost in Hc. discriminate.
Qed.


(** X6. A failed query is computed again on the second request after the
    failure: the request that hits the ERROR task removes the entry, and
    the same query then misses the cache and is admitted like a new one. *)
Theorem error_is_recomputed_on_second_read (p : TopQueryParams) (σ : Store)
    (stale : TaskModel) (first second : bool) :
  cache_get σ (digest p) = Some stale ->
  status stale = Some ERROR ->
  let σ1 := gate_store (lookup_or_admit digest p first σ) in
  cache_get σ1 (digest p) = None
  /\ lookup_or_admit digest p second σ1
     = mkGate (if include_rewards p then [] else [Next]) σ1
              (negb (include_rewards p)) (Some (mkCacheable (digest p) p)).
Proof.
  intros Hget Herr. rewrite (error_hit digest p first σ stale Hget Herr). simpl.
  assert (Hmiss : cache_get
                    (mkStore (heap σ) (delete (digest p) (cache σ)) (timers σ) (clock σ))
                    (digest p) = None).
  { unfold cache_get. simpl. by rewrite lookup_delete_eq. }
  split; [exact Hmiss |].
  unfold lookup_or_admit. rewrite Hmiss. by destruct (include_rewards p).
Qed.

End GateMore.

(** ** The runner: terminal states, timers and what a run leaves alone *)

Section RunnerMore.

Variable Date_parse : string -> option Z.

(** X7. On a response that has not been answered, when [updateRewards]
    rejects, [Post.aggregate] is never called: the run makes the one call, its task ends in ERROR with the message of
    the rejection and without results, and no timer is set. *)
Theorem enrichment_failure_skips_aggregation (w : Collaborators)
    (q : CacheableQueryParams) (σ : Store) (from to : JsVal)
    (limiter : option number) (e : exn) :
  rewards_call (params q) = Some (from, to, limiter) ->
  updateRewards w from to limiter = Some e ->
  (top Date_parse w q false σ).1
  = [ResJson (TaskBody in_progress); UpdateRewards from to limiter]
  /\ cache_get (top Date_parse w q false σ).2 (cacheId q)
     = Some (mkTask (Some ERROR) (Some (message e)) None)
  /\ timers (top Date_parse w q false σ).2 = timers σ.
Proof.
  intros Hcall Hrej.
  rewrite top_effects, top_cache_get.
  unfold top, top_start, top_finish, compute. rewrite Hcall, Hrej. done.
Qed.

(** X8. A run of [top] ends in one of three ways. On a response that has
    not been answered, either its task is SUCCESS with results, and
    exactly one timer was added, due after 12 hours when [include_rewards]
    holds and after 5 minutes otherwise, aimed at the task object of this
    run; or its task is ERROR with a message and without results, and no
    timer was added. On a response the gate has answered, the run throws
    at its first statement after binding the task: no collaborator is
    called, the task stays IN_PROGRESS and no timer is set. *)
Theorem timer_only_on_success (w : Collaborators) (q : CacheableQueryParams)
    (answered : bool) (σ : Store) :
  let run := top Date_parse w q answered σ in
  (answered = false
   /\ exists out,
       cache_get run.2 (cacheId q)
       = Some (mkTask (Some SUCCESS) (Some "SUCCESS") (Some out))
       /\ timers run.2
          = timers σ
            ++ [mkTimer (clock σ + (if include_rewards (params q)
                                    then 43200000 else 300000))
                        (length (heap σ)) (cacheId q)])
  \/ (answered = false
      /\ exists msg,
          cache_get run.2 (cacheId q) = Some (mkTask (Some ERROR) (Some msg) None)
          /\ timers run.2 = timers σ)
  \/ (answered = true
      /\ run.1 = [Throws headers_sent]
      /\ cache_get run.2 (cacheId q) = Some in_progress
      /\ timers run.2 = timers σ).
Proof.
  intros run. subst run. destruct answered.
  { right. right. split; [done |]. apply top_answered. }
  rewrite top_cache_get.
  unfold top, top_start, top_finish, eviction_delay.
  destruct (compute Date_parse w (params q)) as [calls [e | data]]; simpl.
  - right. left. split; [done |]. by exists (message e).
  - left. split; [done |]. exists data. split; [done |].
    by destruct (include_rewards (params q)).
Qed.

(** X9. A run of [top] touches its own task only: the clock does not move,
    every task object that existed before is as it was, one task object is
    added, and the cache binds every other cache id as before. *)
Theorem top_touches_only_its_task (w : Collaborators) (q : CacheableQueryParams)
    (answered : bool) (σ : Store) :
  let σ' := (top Date_parse w q answered σ).2 in
  clock σ' = clock σ
  /\ length (heap σ') = S (length (heap σ))
  /\ (forall l, (l < length (heap σ))%nat -> heap σ' !! l = heap σ !! l)
  /\ (forall id, id <> cacheId q -> cache σ' !! id = cache σ !! id).
Proof.
  intros σ'. subst σ'. unfold top, top_start, top_finish.
  destruct answered.
  { simpl. split; [done |]. split; [rewrite length_app; simpl; lia |].
    split; [intros l Hl; by apply lookup_app_l
           | intros id Hid; by apply lookup_insert_ne]. }
  destruct (compute Date_parse w (params q)) as [calls [e | data]]; simpl;
    (split; [done |]; split;
     [rewrite length_alter, length_app; simpl; lia |]; split;
     [intros l Hl; rewrite list_lookup_alter_ne by lia;
      by apply lookup_app_l
     | intros id Hid; by apply lookup_insert_ne]).
Qed.

(** X10. When [top] starts twice for one cache id before the first run has
    finished, the second run rebinds the cache to its own task object; what
    the first run writes at its end goes to the object it created, which
    the cache no longer reaches: the query still reads IN_PROGRESS. *)
Theorem late_runner_result_is_lost (q : CacheableQueryParams) (σ : Store)
    (outcome : Res (list Doc)) :
  let first := top_start q σ in
  let second := top_start q first.2 in
  first.1 <> second.1
  /\ cache second.2 !! cacheId q = Some second.1
  /\ cache_get (top_finish q first.1 outcome second.2) (cacheId q)
     = Some in_progress.
Proof.
  unfold top_start, top_finish, cache_get. simpl.
  split; [rewrite length_app; simpl; lia |].
  split; [apply lookup_insert_eq |].
  destruct outcome as [e | data]; simpl; rewrite lookup_insert_eq; simpl;
    (rewrite list_lookup_alter_ne by (rewrite length_app; simpl; lia));
    by apply list_lookup_middle.
Qed.

End RunnerMore.

(** ** The results: order, totals and filters *)

Lemma votes_after_count (a b : Doc) :
  is_Some (active_votes a) -> is_Some (active_votes b) ->
  votes_after a b = (vote_count a <? vote_count b)%nat.
Proof.
  intros [va Ha] [vb Hb]. unfold votes_after, vote_count. by rewrite Ha, Hb.
Qed.

Lemma sort_insert_votes (x : Doc) (l : list Doc) :
  is_Some (active_votes x) ->
  Forall (fun d => is_Some (active_votes d)) l ->
  StronglySorted more_votes l ->
  StronglySorted more_votes (sort_insert votes_after x l).
Proof.
  intros Hx Hall Hs. induction l as [| y l IH]; simpl.
  - constructor; constructor.
  - apply Forall_cons in Hall as [Hy Hall].
    apply StronglySorted_inv in Hs as [Hs Hfa].
    rewrite (votes_after_count x y Hx Hy).
    destruct (Nat.ltb_spec (vote_count x) (vote_count y)) as [Hlt | Hge].
    + constructor; [by apply IH |].
      rewrite (sort_insert_perm votes_after x l).
      constructor; [unfold more_votes; lia | exact Hfa].
    + constructor; [by constructor |].
      constructor; [exact Hge |].
      eapply Forall_impl; [exact Hfa |]. unfold more_votes. intros z Hz. lia.
Qed.

Lemma js_sort_votes (l : list Doc) :
  Forall (fun d => is_Some (active_votes d)) l ->
  StronglySorted more_votes (js_sort votes_after l).
Proof.
  induction l as [| x l IH]; intros Hall; simpl; [constructor |].
  apply Forall_cons in Hall as [Hx Hall].
  apply sort_insert_votes; [exact Hx | | by apply IH].
  by rewrite (js_sort_perm votes_after l).
Qed.

Lemma sort_by_votes_sorted (data out : list Doc) :
  sort_by_votes data = inr out -> StronglySorted more_votes out.
Proof.
  unfold sort_by_votes.
  destruct (2 <=? length data)%nat eqn:Hlen; simpl.
  - destruct (forallb _ data) eqn:Hall; simpl; [| discriminate].
    intros [= <-]. apply js_sort_votes.
    apply Forall_forall. intros d Hd.
    rewrite forallb_forall in Hall. apply list_elem_of_In, Hall in Hd.
    by apply bool_decide_eq_true_1 in Hd.
  - intros [= <-]. apply Nat.leb_gt in Hlen.
    destruct data as [| x [| y data]]; simpl in *; try lia;
      repeat constructor.
Qed.

Lemma StronglySorted_take {A : Type} (R : A -> A -> Prop) (n : nat) (l : list A) :
  StronglySorted R l -> StronglySorted R (take n l).
Proof.
  revert n. induction l as [| x l IH]; intros [| n] Hs; simpl;
    try constructor.
  - apply IH. by apply StronglySorted_inv in Hs as [Hs _].
  - apply StronglySorted_inv in Hs as [_ Hfa]. by apply Forall_take.
Qed.

Lemma truncate_sorted (R : Doc -> Doc -> Prop) (lim : number) (data out : list Doc) :
  truncate lim data = inr out -> StronglySorted R data -> StronglySorted R out.
Proof.
  unfold truncate. destruct (Num.gt _ _); [| by intros [= ->]].
  destruct (Num.to_Z lim) as [n |]; [| discriminate].
  destruct (0 <=? n); [| discriminate].
  intros [= <-]. apply StronglySorted_take.
Qed.

Section ResultsMore.

Variable Date_parse : string -> option Z.

(** X11. For a query by contribution sorted by contributions, the results
    are in order of vote count, highest first: every entry has at least as
    many votes as every entry after it. *)
Theorem contributions_ordered_by_votes (p : TopQueryParams) (data out : list Doc) :
  retrieve_by p = RetrieveBy_CONTRIBUTIONS ->
  sort_by p = TopSortBy_CONTRIBUTIONS ->
  postprocess Date_parse p data = inr out ->
  StronglySorted (fun a b => (vote_count b <= vote_count a)%nat) out.
Proof.
  intros Hby Hsort H. unfold postprocess in H.
  rewrite Hby, Hsort in H. simpl in H.
  destruct (contribution_pass Date_parse p data) as [e | kept]; simpl in H;
    [discriminate |].
  destruct (sort_by_votes kept) as [e | sorted] eqn:Hs; simpl in H;
    [discriminate |].
  rewrite andb_false_r in H.
  eapply truncate_sorted; [exact H |].
  by apply (sort_by_votes_sorted kept).
Qed.

(** The loop over the members of a group that ends without [break] has
    added the reward of every member, in order, to the sum it started
    from. *)
Lemma scan_posts_total (p : TopQueryParams) (members : list Doc) :
  include_rewards p = true ->
  forall sum total members',
    scan_posts Date_parse p members sum = inr (false, total, members') ->
    exists rs,
      map reward_of members = map Some rs
      /\ total = foldl Num.add sum rs.
Proof.
  intros Hrew. induction members as [| post rest IH]; intros sum total members' H;
    simpl in H.
  - injection H as <- _. by exists [].
  - destruct (too_old Date_parse p post) as [e | []]; simpl in H;
      try discriminate.
    rewrite Hrew in H.
    destruct (postRewards post) as [e | [r post']] eqn:Hpost; simpl in H;
      [discriminate |].
    destruct (scan_posts Date_parse p rest (Num.add sum r))
      as [e | [[b t] rest']] eqn:Hrest; simpl in H; [discriminate |].
    injection H as -> -> _.
    destruct (IH _ _ _ Hrest) as (rs & Hrs & Htotal).
    exists (r :: rs). split; [| exact Htotal].
    simpl. unfold reward_of at 1. rewrite Hpost. by f_equal.
Qed.

(** X12. For a query by project with rewards, the [rewards] of every entry
    of the results is the sum of the rewards of all the members of the
    group it comes from, added one by one in the order of the member
    list, starting from 0. *)
Theorem project_rewards_sum_members (p : TopQueryParams) (data out : list Doc) :
  retrieve_by p = RetrieveBy_PROJECTS ->
  include_rewards p = true ->
  postprocess Date_parse p data = inr out ->
  forall e, In e out ->
    exists g members rs,
      In g data /\ doc_id g = doc_id e /\ posts g = Some members
      /\ map reward_of members = map Some rs
      /\ rewards e = Some (foldl Num.add (S754_zero false) rs).
Proof.
  intros Hby Hrew H e Hin. unfold postprocess in H.
  rewrite Hby, Hrew in H. simpl in H. rewrite orb_true_r in H.
  destruct (project_pass Date_parse p data) as [ex | kept] eqn:Hpass;
    simpl in H; [discriminate |].
  apply truncate_In with (x := e) in H; [| exact Hin].
  assert (Hmap : In e (map (set_posts None) kept)).
  { destruct (strict_eq (sort_by p) TopSortBy_REWARDS);
      [by apply js_sort_In in H | exact H]. }
  apply in_map_iff in Hmap as (k & <- & Hk).
  destruct (project_pass_In Date_parse p data kept k Hpass Hk) as (g & Hg & Hscan).
  unfold scan_repo in Hscan.
  destruct (posts g) as [members |] eqn:Hposts; [| discriminate].
  destruct (scan_posts Date_parse p members (S754_zero false))
    as [ex | [[b total] members']] eqn:Hsc; simpl in Hscan; [discriminate |].
  destruct b; [discriminate |]. rewrite Hrew in Hscan. injection Hscan as <-.
  destruct (scan_posts_total p members Hrew _ _ _ Hsc) as (rs & Hrs & ->).
  exists g, members, rs. by repeat split.
Qed.

(** What the pass over the contributions keeps comes from a record that is
    not too old, and keeps its identity and its date. *)
Lemma contribution_pass_kept (p : TopQueryParams) (data : list Doc) :
  forall out d,
    contribution_pass Date_parse p data = inr out -> In d out ->
    exists src,
      In src data /\ too_old Date_parse p src = inr false
      /\ doc_id d = doc_id src /\ created d = created src.
Proof.
  induction data as [| post rest IH]; intros out d H Hin; simpl in H.
  - injection H as <-. destruct Hin.
  - destruct (contribution_pass Date_parse p rest) as [e | rest'] eqn:Hrest;
      simpl in H; [discriminate |].
    assert (Hrec : In d rest' ->
                   exists src,
                     In src (post :: rest) /\ too_old Date_parse p src = inr false
                     /\ doc_id d = doc_id src /\ created d = created src).
    { intros Hd. destruct (IH _ _ eq_refl Hd) as (src & Hs & Hrest').
      exists src. split; [by right | exact Hrest']. }
    destruct (too_old Date_parse p post) as [e | []] eqn:Hold; simpl in H;
      try discriminate.
    + injection H as <-. by apply Hrec.
    + destruct (include_rewards p).
      * destruct (postRewards post) as [e | [r cleared]] eqn:Hpost; simpl in H;
          [discriminate |].
        injection H as <-. destruct Hin as [<- | Hin]; [| by apply Hrec].
        apply postRewards_inv in Hpost as (_ & _ & _ & _ & _ & ->).
        exists post. split; [by left | by repeat split].
      * injection H as <-. destruct Hin as [<- | Hin]; [| by apply Hrec].
        exists post. split; [by left | by repeat split].
Qed.

(** X13. For a query by contribution with [only_new], no entry of the
    results was created before [start_date], and every entry is one of
    the records of the aggregation, by identity and date. *)
Theorem only_new_contributions (p : TopQueryParams) (data out : list Doc) :
  retrieve_by p = RetrieveBy_CONTRIBUTIONS ->
  only_new p = true ->
  postprocess Date_parse p data = inr out ->
  forall d, In d out ->
    predates Date_parse p d = inr false
    /\ exists src, In src data /\ doc_id d = doc_id src
                   /\ created d = created src.
Proof.
  intros Hby Hnew H d Hin. unfold postprocess in H.
  rewrite Hby in H. simpl in H.
  destruct (contribution_pass Date_parse p data) as [e | kept] eqn:Hpass;
    simpl in H; [discriminate |].
  destruct (if strict_eq (sort_by p) TopSortBy_CONTRIBUTIONS
            then sort_by_votes kept else inr kept) as [e | sorted] eqn:Hsort;
    simpl in H; [discriminate |].
  apply truncate_In with (x := d) in H; [| exact Hin].
  assert (Hs : In d sorted).
  { destruct (include_rewards p && strict_eq (sort_by p) TopSortBy_REWARDS);
      [by apply js_sort_In in H | exact H]. }
  assert (Hk : In d kept).
  { destruct (strict_eq (sort_by p) TopSortBy_CONTRIBUTIONS).
    - by apply (sort_by_votes_In kept sorted d Hsort).
    - by injection Hsort as <-. }
  destruct (contribution_pass_kept p data kept d Hpass Hk)
    as (src & Hsrc & Hold & Hid & Hmade).
  split; [| by exists src].
  unfold too_old in Hold. rewrite Hnew in Hold.
  unfold predates in *. by rewrite Hmade.
Qed.

End ResultsMore.

(** ** Limits below zero *)

Lemma shr_1_nonneg (mrs : shr_record) : 0 <= shr_m mrs -> 0 <= shr_m (shr_1 mrs).
Proof.
  destruct mrs as [m r s]. simpl.
  destruct m as [| [p | p |] | [p | p |]]; simpl; lia.
Qed.

Lemma iter_shr_1_nonneg (p : positive) :
  forall mrs, 0 <= shr_m mrs -> 0 <= shr_m (SpecFloat.iter_pos shr_1 p mrs).
Proof.
  induction p as [p IH | p IH |]; intros mrs H; simpl.
  - apply IH, IH. by apply shr_1_nonneg.
  - by apply IH, IH.
  - by apply shr_1_nonneg.
Qed.

Lemma shr_fexp_nonneg (m e : Z) (l : location) :
  0 <= m -> 0 <= shr_m (shr_fexp Num.prec Num.emax m e l).1.
Proof.
  intros Hm. unfold shr_fexp, shr.
  assert (H0 : 0 <= shr_m (shr_record_of_loc m l))
    by (destruct l as [| []]; exact Hm).
  destruct (fexp Num.prec Num.emax (Zdigits2 m + e) - e) as [| p | p]; simpl;
    try exact H0.
  by apply iter_shr_1_nonneg.
Qed.

(** Rounding a mantissa that is not negative under the sign [+] gives a
    number that is zero, positive or infinite. *)
Lemma binary_round_aux_nonneg (m e : Z) (l : location) :
  0 <= m ->
  match binary_round_aux Num.prec Num.emax false m e l with
  | S754_zero s | S754_infinity s | S754_finite s _ _ => s = false
  | S754_nan => False
  end.
Proof.
  intros Hm. unfold binary_round_aux.
  pose proof (shr_fexp_nonneg m e l Hm) as H1.
  destruct (shr_fexp Num.prec Num.emax m e l) as [mrs' e']. simpl in H1.
  assert (H2 : 0 <= round_nearest_even (shr_m mrs') (loc_of_shr_record mrs')).
  { unfold round_nearest_even.
    destruct (loc_of_shr_record mrs') as [| []]; try lia.
    destruct (Z.even (shr_m mrs')); lia. }
  pose proof (shr_fexp_nonneg _ e' loc_Exact H2) as H3.
  destruct (shr_fexp Num.prec Num.emax _ e' loc_Exact) as [mrs'' e'']. simpl in H3.
  destruct (shr_m mrs'') as [| p | p].
  - reflexivity.
  - by destruct (e'' <=? Num.emax - Num.prec).
  - lia.
Qed.

(** The length of an array, as a number, is greater than every negative
    number. *)
Lemma length_gt_negative (n : nat) (m : positive) (e : Z) :
  Num.gt (Num.of_Z (Z.of_nat n)) (S754_finite true m e) = true.
Proof.
  unfold Num.gt, SFltb, Num.of_Z, binary_normalize.
  destruct (Z.of_nat n) as [| p | p] eqn:Hn; [reflexivity | | lia].
  unfold binary_round.
  destruct (shl_align p 0 _) as [mz ez].
  pose proof (binary_round_aux_nonneg (Z.pos mz) ez loc_Exact ltac:(lia)) as H.
  destruct (binary_round_aux Num.prec Num.emax false (Z.pos mz) ez loc_Exact)
    as [s | s | | s m' e']; try done; by subst s.
Qed.

Lemma to_Z_negative (m : positive) (e : Z) (n : Z) :
  Num.to_Z (S754_finite true m e) = Some n -> n < 0.
Proof.
  unfold Num.to_Z. destruct e as [| k | k].
  - intros [= <-]. lia.
  - intros [= <-]. pose proof (Z.pow_pos_nonneg 2 (Z.pos k)). nia.
  - destruct (Z.pos m mod 2 ^ Z.pos k =? 0); [| discriminate].
    intros [= <-]. apply Z.div_lt_upper_bound; [| lia].
    apply Z.pow_pos_nonneg; lia.
Qed.

Lemma truncate_negative (m : positive) (e : Z) (data : list Doc) :
  truncate (S754_finite true m e) data = inl (RangeError "Invalid array length").
Proof.
  unfold truncate. rewrite length_gt_negative.
  destruct (Num.to_Z (S754_finite true m e)) as [n |] eqn:Hn; [| reflexivity].
  apply to_Z_negative in Hn. by destruct (Z.leb_spec 0 n); [lia |].
Qed.

Section NegativeLimit.

Variable Date_parse : string -> option Z.

(** X14. A negative limit passes the limit test of the gate, and the run
    it starts never succeeds: on a response that has not been answered the
    task ends in ERROR without results, whatever the collaborators answer,
    and on an answered response it stays IN_PROGRESS. For a plain query by
    project (no rewards, no [only_new]) whose aggregation resolves, the
    message is that of the RangeError raised by [data.length = limit],
    even when the aggregation found nothing. *)
Theorem negative_limit_never_succeeds (w : Collaborators)
    (q : CacheableQueryParams) (answered : bool) (σ : Store)
    (m : positive) (e : Z) :
  limit (params q) = S754_finite true m e ->
  Num.isNaN (limit (params q)) || Num.gt (limit (params q)) (Num.of_Z 100) = false
  /\ (exists t,
      cache_get (top Date_parse w q answered σ).2 (cacheId q) = Some t
      /\ results t = None
      /\ (if answered then t = in_progress
          else exists msg, t = mkTask (Some ERROR) (Some msg) None))
  /\ (retrieve_by (params q) = RetrieveBy_PROJECTS ->
      include_rewards (params q) = false ->
      only_new (params q) = false ->
      forall data,
        Post_aggregate w (aggregateQuery (params q)) = inr data ->
        cache_get (top Date_parse w q false σ).2 (cacheId q)
        = Some (mkTask (Some ERROR) (Some "Invalid array length") None)).
Proof.
  intros Hlim.
  assert (Hfail : forall data, exists ex,
             postprocess Date_parse (params q) data = inl ex).
  { intros data. unfold postprocess. rewrite Hlim.
    match goal with
    | |- exists ex, bindR ?first _ = _ => destruct first as [ex | kept]
    end; simpl; [by exists ex |].
    rewrite truncate_negative. by eexists. }
  split; [by rewrite Hlim |]. split.
  - destruct answered.
    { destruct (top_answered Date_parse w q σ) as (_ & -> & _). by eexists. }
    rewrite top_cache_get. unfold compute.
    destruct (rewards_call (params q)) as [[[from to] limiter] |];
      [destruct (updateRewards w from to limiter) as [ex |] |]; simpl;
      try (eexists; split; [reflexivity |]; split; [reflexivity |]; by eexists);
      (destruct (Post_aggregate w (aggregateQuery (params q))) as [ex | data];
       simpl;
       [eexists; split; [reflexivity |]; split; [reflexivity |]; by eexists |];
       destruct (Hfail data) as [ex ->];
       eexists; split; [reflexivity |]; split; [reflexivity |]; by eexists).
  - intros Hby Hrew Hnew data Hagg.
    rewrite top_cache_get. unfold compute, rewards_call.
    rewrite Hrew, Hby. simpl. rewrite Hagg. simpl.
    unfold postprocess. rewrite Hby, Hrew, Hnew, Hlim. simpl.
    by rewrite truncate_negative.
Qed.

End NegativeLimit.

(** ** Rewards, the clock and the timers *)

(** X15. [postRewards] cannot be applied twice to one record: the first
    call clears both payout fields, so a second call on its result throws
    instead of returning a total. *)
Theorem postRewards_twice_throws (post cleared : Doc) (r : number) :
  postRewards post = inr (r, cleared) ->
  postRewards cleared
  = inl (TypeError "Cannot read property 'split' of undefined").
Proof.
  intros H. by apply postRewards_inv in H as (_ & _ & _ & _ & _ & ->).
Qed.

(** X16. [currentDay()] is the start of the UTC day of the clock: a valid
    date, a whole number of days after the epoch, not after now and less
    than a day before now. A request that gives no [end_date] gets it as
    the end of its window. *)
Theorem currentDay_is_start_of_day (now : Z) :
  (exists t,
      currentDay now = VDate (Some t)
      /\ t mod 86400000 = 0
      /\ t <= now < t + 86400000)
  /\ (forall Date_parse raw,
        raw_end_date raw = VUndef ->
        end_date (normalize Date_parse raw now) = currentDay now).
Proof.
  split.
  - exists (now - now mod day_ms). split; [reflexivity |].
    change day_ms with 86400000.
    pose proof (Z.mod_pos_bound now 86400000 ltac:(lia)) as Hb.
    pose proof (Z.div_mod now 86400000 ltac:(lia)) as Hd.
    split; [| lia].
    replace (now - now mod 86400000) with ((now / 86400000) * 86400000) by lia.
    apply Z_mod_mult.
  - intros Date_parse raw Hend. unfold normalize. simpl. by rewrite Hend.
Qed.

Lemma delete_property_other (k : string) (t : TaskModel) :
  String.length k = 32%nat -> delete_property k t = t.
Proof.
  intros Hk. unfold delete_property.
  destruct (String.eqb_spec k "status") as [-> | _]; [discriminate |].
  destruct (String.eqb_spec k "statusMessage") as [-> | _]; [discriminate |].
  destruct (String.eqb_spec k "results") as [-> | _]; [discriminate |].
  reflexivity.
Qed.

Lemma fire_all_noop (ready : list Timer) (h : list TaskModel) :
  Forall (fun t => String.length (key t) = 32%nat) ready ->
  foldl (fun h t => fire t h) h ready = h.
Proof.
  induction 1 as [| t ready Ht _ IH]; simpl; [reflexivity |].
  unfold fire at 2. rewrite list_alter_id; [exact IH |].
  intros x. by apply delete_property_other.
Qed.

(** X17. When every pending timer carries a key of 32 characters, as the
    hexadecimal MD5 digests that serve as cache ids are, the passage of
    time changes no task and no binding: after any wait every cache id
    reads exactly what it read before. *)
Theorem timers_change_nothing (dt : Z) (σ : Store) :
  Forall (fun t => String.length (key t) = 32%nat) (timers σ) ->
  heap (advance dt σ) = heap σ
  /\ cache (advance dt σ) = cache σ
  /\ forall id, cache_get (advance dt σ) id = cache_get σ id.
Proof.
  intros Hkeys.
  assert (Hheap : heap (advance dt σ) = heap σ).
  { unfold advance. simpl. apply fire_all_noop.
    apply Forall_forall. intros t Ht.
    apply list_elem_of_filter in Ht as [_ Ht].
    rewrite Forall_forall in Hkeys. by apply Hkeys. }
  split; [exact Hheap |]. split; [reflexivity |].
  intros id. unfold cache_get. by rewrite Hheap.
Qed.

(** ** The post controller *)

(** X18. [postMapper] normalizes a post once and for all: applied to its
    own result it changes nothing. In its result each of [pending],
    [reviewed] and [flagged] is [false] or a truthy value, [score] is 0 or
    a truthy value, and [questions] is the stored value when that is
    truthy and an empty array otherwise, so it is never absent. On a post
    without moderator metadata the three flags are [false] and [moderator]
    is what it was. *)
Theorem postMapper_normalizes (post mapped : PostView) :
  postMapper post = inr mapped ->
  postMapper mapped = inr mapped
  /\ (forall flag, flag = pending mapped \/ flag = reviewed mapped
                   \/ flag = flagged mapped ->
                   flag = Prim (VBool false) \/ truthy_any flag = true)
  /\ (score mapped = Prim (VNum (S754_zero false))
      \/ truthy_any (score mapped) = true)
  /\ truthy_any (questions mapped) = true
  /\ (forall meta,
        json_metadata post = Some meta ->
        questions mapped
        = if truthy_any (jm_questions meta) then jm_questions meta else Arr [])
  /\ ((exists meta, json_metadata post = Some meta /\ jm_moderator meta = None) ->
      pending mapped = Prim (VBool false) /\ reviewed mapped = Prim (VBool false)
      /\ flagged mapped = Prim (VBool false) /\ moderator mapped = moderator post).
Proof.
  unfold postMapper.
  destruct (json_metadata post) as [meta |] eqn:Hmeta; [| discriminate].
  assert (Hflag : forall a, js_or a (Prim (VBool false)) = Prim (VBool false)
                            \/ truthy_any (js_or a (Prim (VBool false))) = true).
  { intros a. unfold js_or. destruct (truthy_any a) eqn:Ha; [by right | by left]. }
  assert (Hscore : js_or (jm_score meta) (Prim (VNum (S754_zero false)))
                   = Prim (VNum (S754_zero false))
                   \/ truthy_any (js_or (jm_score meta)
                                    (Prim (VNum (S754_zero false)))) = true).
  { unfold js_or. destruct (truthy_any (jm_score meta)) eqn:Hs; [by right | by left]. }
  assert (Hq : truthy_any (js_or (jm_questions meta) (Arr [])) = true).
  { unfold js_or. by destruct (truthy_any (jm_questions meta)) eqn:Hs. }
  destruct (jm_moderator meta) as [md |] eqn:Hmod; intros [= <-]; simpl;
    rewrite ?Hmod; simpl.
  - split; [done |]. split.
    { intros flag [-> | [-> | ->]]; apply Hflag. }
    split; [exact Hscore |]. split; [exact Hq |].
    split; [by intros meta' [= <-] |].
    intros (meta' & [= <-] & Hnone). congruence.
  - split; [done |]. split.
    { intros flag [-> | [-> | ->]]; by left. }
    split; [exact Hscore |]. split; [exact Hq |].
    split; [by intros meta' [= <-] |]. done.
Qed.

(** X19. [getPostById] answers exactly when [Number(postId)] is not NaN.
    For any other id it does nothing at all: no body is sent and [next]
    is not called. When it answers and no post has the id, it is [next]
    that is called, with the TypeError of reading [url] off [post[0]];
    otherwise the [url] of the first post found is sent. *)
Theorem getPostById_answers_iff_numeric (Post_list : string -> Res (list PostView))
    (postId : string) :
  (getPostById Post_list postId = None
   <-> Num.isNaN (Str.toNumber postId) = true)
  /\ (Num.isNaN (Str.toNumber postId) = false ->
      (Post_list postId = inr [] ->
       getPostById Post_list postId
       = Some (ReplyNext (TypeError "Cannot read property 'url' of undefined")))
      /\ (forall post rest,
            Post_list postId = inr (post :: rest) ->
            getPostById Post_list postId = Some (ReplyUrl (url post)))
      /\ (forall e,
            Post_list postId = inl e ->
            getPostById Post_list postId = Some (ReplyNext e))).
Proof.
  unfold getPostById. simpl.
  destruct (Num.isNaN (Str.toNumber postId)); simpl.
  - split; [done |]. discriminate.
  - split; [split; discriminate |]. intros _.
    split; [by intros -> |]. split; [by intros post rest -> | by intros e ->].
Qed.

(** ** The further properties on concrete runs *)

Lemma hit_serves_task_witness :
  let now := 1580558400000 in
  let q := admitted jan_week now in
  let σ := (top example_parse (answering []) q false (empty_store now)).2 in
  let t := mkTask (Some SUCCESS) (Some "SUCCESS") (Some []) in
  let wide := with_retrieve_by "contributions"
                (with_dates "2020-01-01" "2020-02-01" no_query) in
  let busy := (top_start (admitted wide now) (empty_store now)).2 in
  ((validate example_parse jan_week (clock σ) = Continue [] (params q)
    /\ cache_get σ (example_digest (params q)) = Some t
    /\ status t <> Some ERROR)
   /\ bypassRateLimit example_parse example_digest jan_week σ
      = mkGate [ResJson (TaskBody t)] σ true None)
  /\ ((validate example_parse wide (clock busy)
       = Continue [ResJson range_error] (params (admitted wide now))
       /\ cache_get busy (cacheId (admitted wide now)) = Some in_progress
       /\ status in_progress <> Some ERROR)
      /\ bypassRateLimit example_parse example_digest wide busy
         = mkGate [ResJson range_error; Throws headers_sent] busy true None).
Proof.
  intros now q σ t wide busy.
  assert (Hv : validate example_parse jan_week (clock σ) = Continue [] (params q))
    by (vm_compute; reflexivity).
  assert (Hget : cache_get σ (example_digest (params q)) = Some t)
    by (vm_compute; reflexivity).
  assert (Hst : status t <> Some ERROR) by discriminate.
  assert (Hv' : validate example_parse wide (clock busy)
                = Continue [ResJson range_error] (params (admitted wide now)))
    by (vm_compute; reflexivity).
  assert (Hget' : cache_get busy (example_digest (params (admitted wide now)))
                  = Some in_progress)
    by (vm_compute; reflexivity).
  assert (Hst' : status in_progress <> Some ERROR) by discriminate.
  split; (split; [by repeat split |]).
  - destruct (hit_serves_task example_parse example_digest jan_week σ []
                (params q) t Hv Hget Hst) as [[_ H] | [[=] _]].
    exact H.
  - destruct (hit_serves_task example_parse example_digest wide busy
                [ResJson range_error] (params (admitted wide now)) in_progress
                Hv' Hget' Hst') as [[[=] _] | [_ H]].
    exact H.
Defined.

Lemma malformed_date_goes_to_next_witness :
  let raw := mkRaw VUndef VUndef (VBool true) VUndef VUndef (VStr "true") VUndef in
  let σ := empty_store 1580558400000 in
  let q := normalize example_parse raw (clock σ) in
  (Num.isNaN (limit q) = false
   /\ Num.gt (limit q) (Num.of_Z 100) = false
   /\ include_rewards q = true
   /\ forall t, end_date q <> VDate t)
  /\ bypassRateLimit example_parse example_digest raw σ
     = mkGate [NextError (TypeError "end_date.getTime is not a function")]
              σ true None.
Proof.
  intros raw σ q.
  assert (Hend : forall t, end_date q <> VDate t) by (intros t; discriminate).
  split; [by repeat split |].
  destruct (malformed_date_goes_to_next example_parse example_digest raw σ
              eq_refl eq_refl (or_introl eq_refl) (or_introl Hend))
    as (name & _ & Hname & Hgate).
  rewrite (Hname Hend) in Hgate. exact Hgate.
Defined.

Lemma range_error_iff_witness :
  let raw := mkRaw VUndef (VDate (Some 0)) (VDate (Some 691200000))
                   VUndef VUndef (VStr "true") VUndef in
  let wide := mkRaw VUndef (VDate (Some 0)) (VDate (Some 691200001))
                    VUndef VUndef (VStr "true") VUndef in
  validate example_parse raw 1580558400000
  = Continue [] (normalize example_parse raw 1580558400000)
  /\ validate example_parse wide 1580558400000
     = Continue [ResJson range_error] (normalize example_parse wide 1580558400000)
  /\ exists s e,
      start_date (normalize example_parse wide 1580558400000) = VDate (Some s)
      /\ end_date (normalize example_parse wide 1580558400000) = VDate (Some e)
      /\ 8 * 24 * 60 * 60 * 1000 < e - s.
Proof.
  intros raw wide. split; [reflexivity |]. split; [reflexivity |].
  destruct (range_error_iff example_parse wide 1580558400000
              [ResJson range_error]
              (normalize example_parse wide 1580558400000) eq_refl)
    as [[Hto _] _].
  destruct (Hto eq_refl) as [_ H]. exact H.
Defined.

Lemma error_is_recomputed_on_second_read_witness :
  let now := 1580558400000 in
  let q := admitted jan_week now in
  let σ := (top example_parse (failing "connection lost") q false (empty_store now)).2 in
  let stale := mkTask (Some ERROR) (Some "connection lost") None in
  let σ1 := gate_store (lookup_or_admit example_digest (params q) false σ) in
  (cache_get σ (example_digest (params q)) = Some stale
   /\ status stale = Some ERROR)
  /\ cache_get σ1 (example_digest (params q)) = None
  /\ lookup_or_admit example_digest (params q) false σ1
     = mkGate [Next] σ1 true (Some q).
Proof.
  intros now q σ stale σ1.
  assert (Hget : cache_get σ (example_digest (params q)) = Some stale)
    by (vm_compute; reflexivity).
  split; [by split |].
  exact (error_is_recomputed_on_second_read example_digest (params q) σ stale
           false false Hget eq_refl).
Defined.

Lemma enrichment_failure_skips_aggregation_witness :
  let now := 1580558400000 in
  let q := admitted (with_include_rewards (VStr "true") jan_week) now in
  let w := rejecting "ledger unreachable" in
  let from := VDate (Some 1577836800000) in
  let to := VDate (Some 1578441600000) in
  let run := top example_parse w q false (empty_store now) in
  (rewards_call (params q) = Some (from, to, Some (Num.of_Z 5))
   /\ updateRewards w from to (Some (Num.of_Z 5)) = Some (Failure "ledger unreachable"))
  /\ run.1 = [ResJson (TaskBody in_progress);
              UpdateRewards from to (Some (Num.of_Z 5))]
  /\ cache_get run.2 (cacheId q)
     = Some (mkTask (Some ERROR) (Some "ledger unreachable") None)
  /\ timers run.2 = [].
Proof.
  intros now q w from to run.
  split; [by split |].
  exact (enrichment_failure_skips_aggregation example_parse w q (empty_store now)
           from to (Some (Num.of_Z 5)) (Failure "ledger unreachable")
           eq_refl eq_refl).
Defined.

Lemma contributions_ordered_by_votes_witness :
  let p := normalize example_parse (with_retrieve_by "contributions" jan_week)
             1580558400000 in
  let out := [ contribution "carol/new-endpoint" "2020-01-05" ["bob"; "dave"]
                 "12.500 SBD" "0.250 SBD";
               contribution "alice/fix-typo" "2020-01-05" ["bob"]
                 "1.000 SBD" "0.000 SBD";
               contribution "alice/old-post" "2019-12-25" []
                 "0.000 SBD" "3.000 SBD" ] in
  (retrieve_by p = RetrieveBy_CONTRIBUTIONS
   /\ sort_by p = TopSortBy_CONTRIBUTIONS
   /\ postprocess example_parse p three_contributions = inr out)
  /\ map vote_count out = [2; 1; 0]%nat
  /\ StronglySorted (fun a b => (vote_count b <= vote_count a)%nat) out.
Proof.
  intros p out.
  split; [by repeat split |]. split; [reflexivity |].
  exact (contributions_ordered_by_votes example_parse p three_contributions out
           eq_refl eq_refl eq_refl).
Defined.

Lemma project_rewards_sum_members_witness :
  let p := normalize example_parse (with_include_rewards (VStr "true") jan_week)
             1580558400000 in
  let total (ss : list string) :=
    Some (foldl Num.add (S754_zero false) (map Str.parseFloat ss)) in
  let out := [ mkDoc "steemit/steem" None None None None (total ["1"; "3"]) None;
               mkDoc "utopian-io/api" None None None None (total ["12.75"]) None ] in
  (retrieve_by p = RetrieveBy_PROJECTS
   /\ include_rewards p = true
   /\ postprocess example_parse p two_projects = inr out)
  /\ forall e, In e out ->
       exists g members rs,
         In g two_projects /\ doc_id g = doc_id e /\ posts g = Some members
         /\ map reward_of members = map Some rs
         /\ rewards e = Some (foldl Num.add (S754_zero false) rs).
Proof.
  intros p total out.
  assert (Hpost : postprocess example_parse p two_projects = inr out)
    by (vm_compute; reflexivity).
  split; [by repeat split |].
  exact (project_rewards_sum_members example_parse p two_projects out
           eq_refl eq_refl Hpost).
Defined.

Lemma only_new_contributions_witness :
  let p := normalize example_parse
             (with_only_new (VStr "true") (with_retrieve_by "contributions" jan_week))
             1580558400000 in
  let out := [ contribution "carol/new-endpoint" "2020-01-05" ["bob"; "dave"]
                 "12.500 SBD" "0.250 SBD";
               contribution "alice/fix-typo" "2020-01-05" ["bob"]
                 "1.000 SBD" "0.000 SBD" ] in
  (retrieve_by p = RetrieveBy_CONTRIBUTIONS
   /\ only_new p = true
   /\ postprocess example_parse p three_contributions = inr out)
  /\ forall d, In d out ->
       predates example_parse p d = inr false
       /\ exists src, In src three_contributions /\ doc_id d = doc_id src
                      /\ created d = created src.
Proof.
  intros p out.
  assert (Hpost : postprocess example_parse p three_contributions = inr out)
    by (vm_compute; reflexivity).
  split; [by repeat split |].
  exact (only_new_contributions example_parse p three_contributions out
           eq_refl eq_refl Hpost).
Defined.

Lemma negative_limit_never_succeeds_witness :
  let now := 1580558400000 in
  let q := admitted (with_limit (VStr "-3") jan_week) now in
  limit (params q) = S754_finite true 6755399441055744 (-51)
  /\ validate example_parse (with_limit (VStr "-3") jan_week) now
     = Continue [] (params q)
  /\ cache_get (top example_parse (answering []) q false (empty_store now)).2 (cacheId q)
     = Some (mkTask (Some ERROR) (Some "Invalid array length") None).
Proof.
  intros now q. split; [reflexivity |]. split; [reflexivity |].
  destruct (negative_limit_never_succeeds example_parse (answering []) q false
              (empty_store now) 6755399441055744 (-51) eq_refl)
    as (_ & _ & H).
  exact (H eq_refl eq_refl eq_refl [] eq_refl).
Defined.

Lemma postRewards_twice_throws_witness :
  let post := contribution "carol/new-endpoint" "2020-01-05" ["bob"; "dave"]
                "12.500 SBD" "0.250 SBD" in
  let cleared := mkDoc "carol/new-endpoint" (Some "2020-01-05")
                       (Some ["bob"; "dave"]) None None None None in
  postRewards post = inr (Str.parseFloat "12.75", cleared)
  /\ postRewards cleared
     = inl (TypeError "Cannot read property 'split' of undefined").
Proof.
  intros post cleared. split; [reflexivity |].
  exact (postRewards_twice_throws post cleared (Str.parseFloat "12.75") eq_refl).
Defined.

Lemma timers_change_nothing_witness :
  let id := "9e107d9d372bb6826bd81d3542a419d6" in
  let task := mkTask (Some SUCCESS) (Some "SUCCESS") (Some []) in
  let σ := mkStore [task] {[ id := 0%nat ]} [mkTimer 300000 0%nat id] 0 in
  Forall (fun t => String.length (key t) = 32%nat) (timers σ)
  /\ timers (advance 300000 σ) = []
  /\ heap (advance 300000 σ) = heap σ
  /\ cache (advance 300000 σ) = cache σ
  /\ forall id', cache_get (advance 300000 σ) id' = cache_get σ id'.
Proof.
  intros id task σ.
  assert (Hkeys : Forall (fun t => String.length (key t) = 32%nat) (timers σ))
    by (repeat constructor).
  split; [exact Hkeys |]. split; [reflexivity |].
  exact (timers_change_nothing 300000 σ Hkeys).
Defined.

Lemma postMapper_normalizes_witness :
  let meta := mkJsonMetadata
                (Some (mkModeratorMeta (Prim (VStr "elear")) (Prim VUndef)
                         (Prim (VBool true)) (Prim (VBool false))))
                (Prim (VStr "is it a bug?")) (Prim VUndef) in
  let post := mkPostView (Prim (VStr "/utopian-io/@carol/new-endpoint"))
                (Some meta) (Prim VUndef) (Prim VUndef) (Prim VUndef)
                (Prim VUndef) (Prim VUndef) (Prim VUndef) in
  let mapped := mkPostView (Prim (VStr "/utopian-io/@carol/new-endpoint"))
                  (Some meta) (Prim (VStr "elear")) (Prim (VBool false))
                  (Prim (VBool true)) (Prim (VBool false))
                  (Prim (VStr "is it a bug?"))
                  (Prim (VNum (S754_zero false))) in
  postMapper post = inr mapped
  /\ postMapper mapped = inr mapped.
Proof.
  intros meta post mapped. split; [reflexivity |].
  exact (proj1 (postMapper_normalizes post mapped eq_refl)).
Defined.

(** ** A [retrieve_by] that is neither ['projects'] nor ['contributions'] *)

Section UnknownGranularity.

Variable Date_parse : string -> option Z.

(** X20. [retrieve_by] is never checked. With a value that is neither
    ['projects'] nor ['contributions'] the aggregation has a match stage
    and no group stage, and the runner filters nothing and computes
    nothing: every entry of the results is a record of the aggregation
    exactly as it came, raw payout fields included, also when
    [include_rewards] or [only_new] is set. *)
Theorem unknown_retrieve_by_passes_through (p : TopQueryParams)
    (data out : list Doc) :
  retrieve_by p <> RetrieveBy_PROJECTS ->
  retrieve_by p <> RetrieveBy_CONTRIBUTIONS ->
  postprocess Date_parse p data = inr out ->
  aggregateQuery p
  = [aggregateMatch (if only_new p then None else Some (start_date p)) (end_date p)]
  /\ (length out <= length data)%nat
  /\ forall d, In d out -> In d data.
Proof.
  intros Hp Hc H.
  assert (Hp' : strict_eq (retrieve_by p) RetrieveBy_PROJECTS = false).
  { apply not_true_is_false. intros E. by apply strict_eq_str in E. }
  assert (Hc' : strict_eq (retrieve_by p) RetrieveBy_CONTRIBUTIONS = false).
  { apply not_true_is_false. intros E. by apply strict_eq_str in E. }
  split; [unfold aggregateQuery; by rewrite Hp' |].
  unfold postprocess in H. rewrite Hp', Hc' in H. simpl in H.
  split.
  - apply truncate_length in H.
    destruct (include_rewards p && strict_eq (sort_by p) TopSortBy_REWARDS);
      [| exact H].
    by rewrite (Permutation_length (js_sort_perm rewards_after data)) in H.
  - intros d Hd. apply truncate_In with (x := d) in H; [| exact Hd].
    destruct (include_rewards p && strict_eq (sort_by p) TopSortBy_REWARDS);
      [by apply js_sort_In in H | exact H].
Qed.

End UnknownGranularity.

Lemma unknown_retrieve_by_passes_through_witness :
  let raw := with_include_rewards (VStr "true")
               (with_only_new (VStr "true") (with_retrieve_by "project" jan_week)) in
  let p := normalize example_parse raw 1580558400000 in
  (retrieve_by p <> RetrieveBy_PROJECTS
   /\ retrieve_by p <> RetrieveBy_CONTRIBUTIONS
   /\ validate example_parse raw 1580558400000 = Continue [] p
   /\ postprocess example_parse p three_contributions = inr three_contributions)
  /\ aggregateQuery p = [aggregateMatch None (VDate (Some 1578441600000))]
  /\ forall d, In d three_contributions -> In d three_contributions.
Proof.
  intros raw p.
  assert (Hp : retrieve_by p <> RetrieveBy_PROJECTS) by discriminate.
  assert (Hc : retrieve_by p <> RetrieveBy_CONTRIBUTIONS) by discriminate.
  assert (Hpost : postprocess example_parse p three_contributions
                  = inr three_contributions) by (vm_compute; reflexivity).
  split; [by repeat split |].
  destruct (unknown_retrieve_by_passes_through example_parse p
              three_contributions three_contributions Hp Hc Hpost)
    as (Hq & _ & Hin).
  split; [exact Hq | exact Hin].
Defined.
